(** * Seepage: the figure callback of [src/App.py]

    The application is one Dash callback, [update_figure], which turns seven
    slider values into a Plotly figure, and one helper, [hydraulic_head].
    Both are embedded below as pure functions.

    Python's arithmetic operators are duck-typed: the callback receives [int]
    or [float] slider values and applies the same expressions to NumPy arrays.
    The embedding follows this: the code is written once over an interface of
    numbers ([PyNum]) and read at two instances,

    - [Q], exact rational arithmetic, the level at which the specification
      speaks (its head field is "real-valued");
    - [float], IEEE binary64 with round-to-nearest-even, the numbers the
      interpreter computes with.

    Properties of the structure of the figure are proved at every instance.
    Properties of its numbers are proved for all inputs in exact arithmetic
    and, in binary64, by evaluation over all values the sliders can take. *)

From Stdlib Require Import String List ZArith QArith Qfield Lqa Lia Bool Floats.
From Stdlib Require Import Qround.
Import ListNotations.

Set Implicit Arguments.

(** ** Numbers *)

Declare Scope py_scope.
Delimit Scope py_scope with py.

Class PyNum (A : Type) : Type := {
  of_Z : Z -> A;          (* an [int] used in arithmetic with numbers of [A] *)
  add : A -> A -> A;
  sub : A -> A -> A;
  mul : A -> A -> A;
  div : A -> A -> A;      (* true division, [/] *)
  eqb : A -> A -> bool;   (* [==] *)
  ltb : A -> A -> bool;   (* [<] *)
  leb : A -> A -> bool    (* [<=] *)
}.

Infix "+" := add : py_scope.
Infix "-" := sub : py_scope.
Infix "*" := mul : py_scope.
Infix "/" := div : py_scope.

(** A decimal literal [m]e-[k], such as [0.1] = [lit 1 1]: the number of [A]
    nearest to m / 10^k. *)
Definition lit {A : Type} {py : PyNum A} (m : Z) (k : nat) : A :=
  (of_Z m / of_Z (10 ^ Z.of_nat k))%py.

#[global] Instance PyNum_Q : PyNum Q := {
  of_Z := inject_Z;
  add := Qplus;
  sub := Qminus;
  mul := Qmult;
  div := Qdiv;
  eqb := Qeq_bool;
  ltb := fun x y => negb (Qle_bool y x);
  leb := Qle_bool
}.

(** Integers of magnitude below 2^53 convert to binary64 without rounding;
    every integer the callback converts is far below that. *)
Definition float_of_Z (z : Z) : float :=
  match z with
  | Z0 => PrimFloat.zero
  | Zpos _ => PrimFloat.of_uint63 (Uint63.of_Z z)
  | Zneg p => PrimFloat.opp (PrimFloat.of_uint63 (Uint63.of_Z (Zpos p)))
  end.

#[global] Instance PyNum_float : PyNum float := {
  of_Z := float_of_Z;
  add := PrimFloat.add;
  sub := PrimFloat.sub;
  mul := PrimFloat.mul;
  div := PrimFloat.div;
  eqb := PrimFloat.eqb;
  ltb := PrimFloat.ltb;
  leb := PrimFloat.leb
}.

(** ** NumPy: [linspace], [meshgrid], broadcasting *)

Section Arrays.
Context {A : Type} {py : PyNum A}.

(** [np.arange(0, num)] as numbers. *)
Definition arange (num : nat) : list A :=
  map (fun i => of_Z (Z.of_nat i)) (seq 0 num).

(** [y[-1] = stop] *)
Definition set_last (stop : A) (y : list A) : list A :=
  match y with
  | [] => []
  | _ :: _ => removelast y ++ [stop]
  end.

(** [np.linspace(start, stop, num)] with [endpoint=True], for [num > 1]:
    [num] samples [start + i*step] with [step = (stop - start)/(num - 1)],
    the last one overwritten with [stop]. A zero step is multiplied out the
    other way round, as NumPy does for denormal steps. *)
Definition linspace (start stop : A) (num : nat) : list A :=
  let dv := of_Z (Z.of_nat (num - 1)) in
  let delta := (stop - start)%py in
  let y := arange num in
  let step := (delta / dv)%py in
  let y := if eqb step (of_Z 0)
           then map (fun v => (v / dv * delta)%py) y
           else map (fun v => (v * step)%py) y in
  let y := map (fun v => (v + start)%py) y in
  set_last stop y.

(** [X, Y = np.meshgrid(x, y)]: one row per entry of [y]; [X[i][j] = x[j]]
    and [Y[i][j] = y[i]]. *)
Definition meshgrid (x y : list A) : list (list A) * list (list A) :=
  (map (fun _ => x) y, map (fun yi => map (fun _ => yi) x) y).

(** An expression in two arrays of one shape is evaluated entry by entry. *)
Definition broadcast2 (f : A -> A -> A) (X Y : list (list A)) : list (list A) :=
  map (fun r => map (fun p => f (fst p) (snd p)) (combine (fst r) (snd r)))
      (combine X Y).

(** ** [hydraulic_head] *)

Definition hydraulic_head (X Y W head_left head_right : A) : A :=
  (head_left - (head_left - head_right) * X / W)%py.

End Arrays.

(** ** Plotly figures

    A figure is the data the callback hands back to Dash: a list of traces
    and a layout holding the shapes, the annotations, the title, the axes and
    the canvas size. Properties the callback never sets are [None]. *)

Open Scope string_scope.

Module Line.
Record t (A : Type) : Type := { color : string; width : option A }.
End Line.

Module Shape.
Record t (A : Type) : Type := {
  type : string;
  x0 : A; x1 : A; y0 : A; y1 : A;
  line : Line.t A;
  fillcolor : option string;
  layer : option string
}.
End Shape.

Module Trace.
(** [go.Contour(z, x, y, contours, showscale, line_width, line)] *)
Record t (A : Type) : Type := {
  type : string;
  z : list (list A);
  x : list A;
  y : list A;
  contours_coloring : string;
  showscale : bool;
  line : Line.t A
}.
End Trace.

(** The pieces of an f-string: literal text and formatted values. *)
Inductive fpiece (A : Type) : Type :=
| Text (s : string)
| Value (v : A).
Arguments Text {A} s.

Module Annotation.
Record t (A : Type) : Type := {
  x : A; y : A;
  text : list (fpiece A);
  showarrow : bool;
  font_color : string
}.
End Annotation.

Module Axis.
Record t (A : Type) : Type := {
  title : option string;
  range : option (A * A)
}.
End Axis.

Module Layout.
Record t (A : Type) : Type := {
  title : option string;
  xaxis : Axis.t A;
  yaxis : Axis.t A;
  height : option Z;
  width : option Z;
  shapes : list (Shape.t A);
  annotations : list (Annotation.t A)
}.
End Layout.

Module Figure.
Record t (A : Type) : Type := {
  data : list (Trace.t A);
  layout : Layout.t A
}.
End Figure.

Section Plotly.
Context {A : Type}.

(** [go.Figure()] *)
Definition Figure_new : Figure.t A :=
  {| Figure.data := [];
     Figure.layout :=
       {| Layout.title := None;
          Layout.xaxis := {| Axis.title := None; Axis.range := None |};
          Layout.yaxis := {| Axis.title := None; Axis.range := None |};
          Layout.height := None;
          Layout.width := None;
          Layout.shapes := [];
          Layout.annotations := [] |} |}.

Definition with_layout (f : Layout.t A -> Layout.t A) (fig : Figure.t A)
  : Figure.t A :=
  {| Figure.data := Figure.data fig;
     Figure.layout := f (Figure.layout fig) |}.

(** [fig.add_shape(...)] appends to [layout.shapes]. *)
Definition add_shape (fig : Figure.t A) (s : Shape.t A) : Figure.t A :=
  with_layout (fun l =>
    {| Layout.title := Layout.title l;
       Layout.xaxis := Layout.xaxis l;
       Layout.yaxis := Layout.yaxis l;
       Layout.height := Layout.height l;
       Layout.width := Layout.width l;
       Layout.shapes := Layout.shapes l ++ [s];
       Layout.annotations := Layout.annotations l |}) fig.

(** [fig.add_annotation(...)] appends to [layout.annotations]. *)
Definition add_annotation (fig : Figure.t A) (a : Annotation.t A)
  : Figure.t A :=
  with_layout (fun l =>
    {| Layout.title := Layout.title l;
       Layout.xaxis := Layout.xaxis l;
       Layout.yaxis := Layout.yaxis l;
       Layout.height := Layout.height l;
       Layout.width := Layout.width l;
       Layout.shapes := Layout.shapes l;
       Layout.annotations := Layout.annotations l ++ [a] |}) fig.

(** [fig.add_trace(...)] appends to [data]. *)
Definition add_trace (fig : Figure.t A) (t : Trace.t A) : Figure.t A :=
  {| Figure.data := Figure.data fig ++ [t];
     Figure.layout := Figure.layout fig |}.

(** [fig.update_layout(title=, xaxis_title=, yaxis_title=, xaxis=dict(range=),
    yaxis=dict(range=), height=, width=)]. The keywords are merged into the
    layout one after the other: [xaxis=dict(range=...)] updates the axis set
    up by [xaxis_title] and keeps its title. Shapes and annotations are left
    as they are. *)
Definition update_layout (fig : Figure.t A)
    (title xaxis_title yaxis_title : string)
    (xaxis_range yaxis_range : A * A) (height width : Z) : Figure.t A :=
  with_layout (fun l =>
    let xaxis := {| Axis.title := Some xaxis_title;
                    Axis.range := Axis.range (Layout.xaxis l) |} in
    let yaxis := {| Axis.title := Some yaxis_title;
                    Axis.range := Axis.range (Layout.yaxis l) |} in
    let xaxis := {| Axis.title := Axis.title xaxis;
                    Axis.range := Some xaxis_range |} in
    let yaxis := {| Axis.title := Axis.title yaxis;
                    Axis.range := Some yaxis_range |} in
    {| Layout.title := Some title;
       Layout.xaxis := xaxis;
       Layout.yaxis := yaxis;
       Layout.height := Some height;
       Layout.width := Some width;
       Layout.shapes := Layout.shapes l;
       Layout.annotations := Layout.annotations l |}) fig.

End Plotly.

(** ** [update_figure] *)

Section Callback.
Context {A : Type} {py : PyNum A}.

Local Open Scope py_scope.

Definition update_figure
    (H W K head_left head_right
     excavation_depth_right excavation_depth_left : A) : Figure.t A :=
  (* Create mesh grid *)
  let x := linspace (of_Z 0) W 100 in
  let y := linspace (of_Z 0) H 100 in
  let '(X, Y) := meshgrid x y in
  (* Calculate hydraulic head *)
  let head :=
    broadcast2 (fun X Y => hydraulic_head X Y W head_left head_right) X Y in
  let fig := Figure_new in
  (* Add excavation box on the right (lower) *)
  let fig := add_shape fig
    {| Shape.type := "rect";
       Shape.x0 := W / of_Z 2; Shape.x1 := W;
       Shape.y0 := H; Shape.y1 := H - excavation_depth_right;
       Shape.line := {| Line.color := "Black"; Line.width := Some (of_Z 2) |};
       Shape.fillcolor := Some "white"; Shape.layer := Some "below" |} in
  (* Add excavation box on the left (shallower or non-excavated) *)
  let fig := add_shape fig
    {| Shape.type := "rect";
       Shape.x0 := of_Z 0; Shape.x1 := W / of_Z 2;
       Shape.y0 := H; Shape.y1 := H - excavation_depth_left;
       Shape.line := {| Line.color := "Black"; Line.width := Some (of_Z 2) |};
       Shape.fillcolor := Some "white"; Shape.layer := Some "below" |} in
  (* Add sheetpile (vertical line separating the two sides) *)
  let fig := add_shape fig
    {| Shape.type := "rect";
       Shape.x0 := (W / of_Z 2) - lit 5 1; Shape.x1 := W / of_Z 2;
       Shape.y0 := H;
       Shape.y1 := H - (excavation_depth_right
                        + (lit 1 1 * (H - excavation_depth_right)));
       Shape.line := {| Line.color := "gray"; Line.width := Some (of_Z 1) |};
       Shape.fillcolor := Some "gray"; Shape.layer := None |} in
  (* Add equipotential lines (contours) *)
  let fig := add_trace fig
    {| Trace.type := "contour";
       Trace.z := head; Trace.x := x; Trace.y := y;
       Trace.contours_coloring := "lines";
       Trace.showscale := false;
       Trace.line := {| Line.color := "blue"; Line.width := Some (of_Z 1) |}
    |} in
  (* Add flow lines (manually specified for illustration) *)
  let flow_lines_x := linspace (of_Z 0) W 5 in
  let fig := fold_left (fun fig x_coord => add_shape fig
    {| Shape.type := "line";
       Shape.x0 := x_coord; Shape.x1 := x_coord;
       Shape.y0 := of_Z 0; Shape.y1 := H;
       Shape.line := {| Line.color := "orange"; Line.width := Some (lit 15 1) |};
       Shape.fillcolor := None; Shape.layer := None |}) flow_lines_x fig in
  (* Set the axis limits *)
  let fig := update_layout fig
    "Seepage Flow Around a Deep Excavation with Flow Net"
    "Width (m)" "Depth (m)" (of_Z 0, W) (of_Z 0, H) 600 900 in
  (* Add water level on the left (head_left) as a horizontal line *)
  let fig := add_shape fig
    {| Shape.type := "line";
       Shape.x0 := of_Z 0; Shape.x1 := W / of_Z 2;
       Shape.y0 := head_left; Shape.y1 := head_left;
       Shape.line := {| Line.color := "blue"; Line.width := Some (of_Z 2) |};
       Shape.fillcolor := None; Shape.layer := Some "above" |} in
  let fig := add_annotation fig
    {| Annotation.x := W / of_Z 4; Annotation.y := head_left;
       Annotation.text :=
         [Text "Water Level (Left): "; Value head_left; Text " m"];
       Annotation.showarrow := false;
       Annotation.font_color := "blue" |} in
  (* Add water level on the right (head_right) as a horizontal line *)
  let fig := add_shape fig
    {| Shape.type := "line";
       Shape.x0 := W / of_Z 2; Shape.x1 := W;
       Shape.y0 := head_right; Shape.y1 := head_right;
       Shape.line := {| Line.color := "blue"; Line.width := Some (of_Z 2) |};
       Shape.fillcolor := None; Shape.layer := Some "above" |} in
  let fig := add_annotation fig
    {| Annotation.x := of_Z 3 * W / of_Z 4; Annotation.y := head_right;
       Annotation.text :=
         [Text "Water Level (Right): "; Value head_right; Text " m"];
       Annotation.showarrow := false;
       Annotation.font_color := "blue" |} in
  fig.

End Callback.

(** ** The callback as Dash calls it

    [@app.callback(Output('seepage-graph', 'figure'), Input('depth-slider',
    'value'), ...)]: on every change of a slider Dash calls [update_figure]
    with the current values of the seven sliders, in the order of the [Input]
    list, and shows the figure it returns. *)

Module Inputs.
Record t (A : Type) : Type := {
  depth_slider : A;
  width_slider : A;
  k_slider : A;
  head_left_slider : A;
  head_right_slider : A;
  excavation_depth_right_slider : A;
  excavation_depth_left_slider : A
}.
End Inputs.

Section Dispatch.
Context {A : Type} {py : PyNum A}.

Definition callback (i : Inputs.t A) : Figure.t A :=
  update_figure (Inputs.depth_slider i) (Inputs.width_slider i)
    (Inputs.k_slider i) (Inputs.head_left_slider i)
    (Inputs.head_right_slider i) (Inputs.excavation_depth_right_slider i)
    (Inputs.excavation_depth_left_slider i).

(** The figures shown over a run of the application, one per input event. *)
Definition dispatch (events : list (Inputs.t A)) : list (Figure.t A) :=
  map callback events.

End Dispatch.

(** ** Reading a figure

    What the statements below look at in a returned figure. Shapes are told
    apart the way Plotly does, by their [type] and stroke colour; the three
    rectangles are named in the order the callback adds them. *)

Section Observations.
Context {A : Type}.

Definition shapes (fig : Figure.t A) : list (Shape.t A) :=
  Layout.shapes (Figure.layout fig).

Definition annotations (fig : Figure.t A) : list (Annotation.t A) :=
  Layout.annotations (Figure.layout fig).

Definition is_rect (s : Shape.t A) : bool := String.eqb (Shape.type s) "rect".

Definition is_line (s : Shape.t A) : bool := String.eqb (Shape.type s) "line".

Definition stroke (s : Shape.t A) : string := Line.color (Shape.line s).

Definition rectangles (fig : Figure.t A) : list (Shape.t A) :=
  filter is_rect (shapes fig).

Definition line_shapes (fig : Figure.t A) : list (Shape.t A) :=
  filter is_line (shapes fig).

(** The orange "flow lines" and the blue water-level lines. *)
Definition flow_lines (fig : Figure.t A) : list (Shape.t A) :=
  filter (fun s => String.eqb (stroke s) "orange") (line_shapes fig).

Definition water_lines (fig : Figure.t A) : list (Shape.t A) :=
  filter (fun s => String.eqb (stroke s) "blue") (line_shapes fig).

Definition excavation_right (fig : Figure.t A) : option (Shape.t A) :=
  nth_error (rectangles fig) 0.

Definition excavation_left (fig : Figure.t A) : option (Shape.t A) :=
  nth_error (rectangles fig) 1.

Definition sheetpile (fig : Figure.t A) : option (Shape.t A) :=
  nth_error (rectangles fig) 2.

Definition contours (fig : Figure.t A) : list (Trace.t A) :=
  filter (fun t => String.eqb (Trace.type t) "contour") (Figure.data fig).

(** The z-data of the contour layer. *)
Definition contour_z (fig : Figure.t A) : list (list A) :=
  match contours fig with
  | t :: _ => Trace.z t
  | [] => []
  end.

(** An annotation that carries literal text. *)
Definition labelled (a : Annotation.t A) : bool :=
  existsb (fun p => match p with Text _ => true | Value _ => false end)
          (Annotation.text a).

(** The title, the axes and the canvas size of the layout. *)
Definition frame (fig : Figure.t A)
  : option string * Axis.t A * Axis.t A * option Z * option Z :=
  let l := Figure.layout fig in
  (Layout.title l, Layout.xaxis l, Layout.yaxis l,
   Layout.height l, Layout.width l).

End Observations.

Section Geometry.
Context {A : Type} {py : PyNum A}.

(** A segment is vertical when its two ends have one abscissa, horizontal
    when they have one ordinate ([==] of the numbers). *)
Definition vertical (s : Shape.t A) : bool := eqb (Shape.x0 s) (Shape.x1 s).

Definition horizontal (s : Shape.t A) : bool := eqb (Shape.y0 s) (Shape.y1 s).

(** Entry [i][j] of a two-dimensional array. *)
Definition entry (a : list (list A)) (i j : nat) : A :=
  nth j (nth i a []) (of_Z 0).

(** The [j]-th of the [num] samples of [linspace(0, stop, num)]. *)
Definition sample (stop : A) (num j : nat) : A :=
  nth j (linspace (of_Z 0) stop num) (of_Z 0).

End Geometry.

(** ** The sliders

    The values a [dcc.Slider(min, max, step)] can hand to the callback:
    [min + i*step] up to [max]. All steps of the layout are 1 or 0.5, so the
    values are written as halves. *)

Section Sliders.
Context {A : Type} {py : PyNum A}.

(** The halves [lo/2, (lo+1)/2, ..., (lo+n-1)/2]. *)
Definition halves (lo : Z) (n : nat) : list A :=
  map (fun i => (of_Z (lo + Z.of_nat i) / of_Z 2)%py) (seq 0 n).

(** The integers [lo, lo+1, ..., lo+n-1]. *)
Definition units (lo : Z) (n : nat) : list A :=
  map (fun i => of_Z (lo + Z.of_nat i)) (seq 0 n).

(** depth-slider: min=5, max=20, step=0.5 *)
Definition depth_slider_values : list A := halves 10 31.
(** width-slider: min=10, max=50, step=1 *)
Definition width_slider_values : list A := units 10 41.
(** head-left-slider: min=5, max=20, step=0.5 *)
Definition head_left_slider_values : list A := halves 10 31.
(** head-right-slider: min=0, max=10, step=0.5 *)
Definition head_right_slider_values : list A := halves 0 21.
(** excavation-depth-right-slider: min=1, max=10, step=0.5 *)
Definition excavation_depth_right_slider_values : list A := halves 2 19.

End Sliders.

(** ** Checks on the slider values

    Decidable forms of the properties of the head and of the shapes, for
    evaluation over the finitely many values the sliders can take. *)

Section Checks.
Context {A : Type} {py : PyNum A}.
Local Open Scope py_scope.

Fixpoint nonincreasing (l : list A) : bool :=
  match l with
  | a :: (b :: _) as t => leb b a && nonincreasing t
  | _ => true
  end.

Fixpoint nondecreasing (l : list A) : bool :=
  match l with
  | a :: (b :: _) as t => leb a b && nondecreasing t
  | _ => true
  end.

Definition between (lo hi v : A) : bool := leb lo v && leb v hi.

(** The head at [x = 0] is [head_left], the head at [x = W] is
    [head_right]. *)
Definition boundary_check (W head_left head_right : A) : bool :=
  eqb (hydraulic_head (of_Z 0) (of_Z 0) W head_left head_right) head_left
  && eqb (hydraulic_head W (of_Z 0) W head_left head_right) head_right.

(** A row of the head field runs monotonically from [head_left] to
    [head_right] and stays between the two. *)
Definition row_check (head_left head_right : A) (row : list A) : bool :=
  eqb (hd (of_Z 0) row) head_left
  && eqb (last row (of_Z 0)) head_right
  && if leb head_right head_left
     then nonincreasing row && forallb (between head_right head_left) row
     else nondecreasing row && forallb (between head_left head_right) row.

(** The bottom of the sheet pile is below the floor of the right excavation
    when that is above the bottom of the soil layer, and an excavation deeper
    than the layer ends below zero. *)
Definition depth_check (H excavation_depth_right : A) : bool :=
  let floor := H - excavation_depth_right in
  let pile := H - (excavation_depth_right
                   + lit 1 1 * (H - excavation_depth_right)) in
  (if ltb excavation_depth_right H then ltb pile floor else true)
  && (if ltb H excavation_depth_right then ltb floor (of_Z 0) else true).

(** The five flow lines stand at the quarter points of the width. *)
Definition quarter_check (W : A) : bool :=
  match linspace (of_Z 0) W 5 with
  | [a; b; c; d; e] =>
      eqb a (of_Z 0) && eqb b (W / of_Z 4) && eqb c (W / of_Z 2)
      && eqb d (of_Z 3 * W / of_Z 4) && eqb e W
  | _ => false
  end.

End Checks.

(** ** The layout

    [app.layout]: a heading, a column of labelled sliders and the graph. *)

Module Slider.
(** [dcc.Slider(id, min, max, step, value, marks)] *)
Record t (A : Type) : Type := {
  id : string;
  min : A;
  max : A;
  step : A;
  value : A;
  marks : list (A * string)
}.
End Slider.

#[warnings="-register-all"]
Inductive component (A : Type) : Type :=
| html_H1 (children : string)
| html_Label (children : string)
| dcc_Slider (s : Slider.t A)
| dcc_Graph (id : string)
| html_Div (children : list (component A)) (style : list (string * string)).

Arguments html_H1 {A} children.
Arguments html_Label {A} children.
Arguments dcc_Graph {A} id.

Section Layout.
Context {A : Type} {py : PyNum A}.

Definition app_layout : component A :=
  html_Div [
    html_H1 "Seepage Flow Around a Deep Excavation with Flow Net";
    (* Sliders for controlling simulation parameters *)
    html_Div [
      html_Label "Total Depth of the Soil Layer (H)";
      dcc_Slider {| Slider.id := "depth-slider";
                    Slider.min := of_Z 5; Slider.max := of_Z 20;
                    Slider.step := lit 5 1; Slider.value := of_Z 10;
                    Slider.marks := [] |};
      html_Label "Width of the Section (W)";
      dcc_Slider {| Slider.id := "width-slider";
                    Slider.min := of_Z 10; Slider.max := of_Z 50;
                    Slider.step := of_Z 1; Slider.value := of_Z 20;
                    Slider.marks := [] |};
      html_Label "Hydraulic Conductivity (K) [m/s]";
      dcc_Slider {| Slider.id := "k-slider";
                    Slider.min := lit 1 6; Slider.max := lit 1 4;
                    Slider.step := lit 1 6; Slider.value := lit 1 5;
                    Slider.marks := [(lit 1 6, "1e-6"); (lit 1 5, "1e-5");
                                     (lit 1 4, "1e-4")] |};
      html_Label "Head on the Left Side [m]";
      dcc_Slider {| Slider.id := "head-left-slider";
                    Slider.min := of_Z 5; Slider.max := of_Z 20;
                    Slider.step := lit 5 1; Slider.value := of_Z 8;
                    Slider.marks := [] |};
      html_Label "Head on the Right Side [m]";
      dcc_Slider {| Slider.id := "head-right-slider";
                    Slider.min := of_Z 0; Slider.max := of_Z 10;
                    Slider.step := lit 5 1; Slider.value := of_Z 5;
                    Slider.marks := [] |};
      html_Label "Excavation Depth on Right [m]";
      dcc_Slider {| Slider.id := "excavation-depth-right-slider";
                    Slider.min := of_Z 1; Slider.max := of_Z 10;
                    Slider.step := lit 5 1; Slider.value := of_Z 5;
                    Slider.marks := [] |};
      html_Label "Excavation Depth on Left [m]";
      dcc_Slider {| Slider.id := "excavation-depth-left-slider";
                    Slider.min := of_Z 0; Slider.max := of_Z 5;
                    Slider.step := lit 5 1; Slider.value := of_Z 0;
                    Slider.marks := [] |}
    ] [("width", "20%"); ("display", "inline-block");
       ("verticalAlign", "top")];
    (* Graph area *)
    html_Div [ dcc_Graph "seepage-graph" ]
      [("width", "75%"); ("display", "inline-block");
       ("verticalAlign", "top")]
  ] [].

(** The sliders of a component tree, in document order. *)
Fixpoint sliders (c : component A) : list (Slider.t A) :=
  match c with
  | dcc_Slider s => [s]
  | html_Div children _ => flat_map sliders children
  | _ => []
  end.

(** The ids of the graphs of a component tree. *)
Fixpoint graphs (c : component A) : list string :=
  match c with
  | dcc_Graph id => [id]
  | html_Div children _ => flat_map graphs children
  | _ => []
  end.

(** All component ids of a tree. *)
Definition component_ids (c : component A) : list string :=
  map (@Slider.id A) (sliders c) ++ graphs c.

(** The [Input(id, 'value')] list and the [Output] of [@app.callback]. *)
Definition callback_inputs : list (string * string) :=
  [("depth-slider", "value"); ("width-slider", "value");
   ("k-slider", "value"); ("head-left-slider", "value");
   ("head-right-slider", "value");
   ("excavation-depth-right-slider", "value");
   ("excavation-depth-left-slider", "value")].

Definition callback_output : string * string := ("seepage-graph", "figure").

(** The [value] of the slider with a given id, as Dash reads it off the
    layout for an [Input]. *)
Definition slider_value (c : component A) (id : string) : option A :=
  option_map (@Slider.value A)
    (find (fun s => String.eqb (Slider.id s) id) (sliders c)).

(** The arguments of the first call of the callback, made when the page
    loads: the [value] of each [Input] in the layout. [None] when an input
    names no slider. *)
Definition initial_inputs (c : component A) : option (Inputs.t A) :=
  match map (fun i => slider_value c (fst i)) callback_inputs with
  | [Some H; Some W; Some K; Some hl; Some hr; Some edr; Some edl] =>
      Some {| Inputs.depth_slider := H; Inputs.width_slider := W;
              Inputs.k_slider := K; Inputs.head_left_slider := hl;
              Inputs.head_right_slider := hr;
              Inputs.excavation_depth_right_slider := edr;
              Inputs.excavation_depth_left_slider := edl |}
  | _ => None
  end.

(** excavation-depth-left-slider: min=0, max=5, step=0.5 *)
Definition excavation_depth_left_slider_values : list A := halves 0 11.

(** [l] is strictly increasing. *)
Fixpoint increasing (l : list A) : bool :=
  match l with
  | a :: (b :: _) as t => ltb a b && increasing t
  | _ => true
  end.

End Layout.

(** The positions of a slider in exact arithmetic: [min + i*step] for the
    whole numbers [i] with [min + i*step <= max]. *)
Definition slider_positions (s : Slider.t Q) : list Q :=
  map (fun i => Slider.min s + inject_Z (Z.of_nat i) * Slider.step s)%Q
      (seq 0 (S (Z.to_nat (Qfloor ((Slider.max s - Slider.min s)
                                    / Slider.step s))))).

(** ** The callback as the interpreter runs it

    A Plotly figure is a mutable object: [go.Figure()] creates one, and
    [add_shape], [add_trace], [update_layout] and [add_annotation] change it
    in place. Here the body of [update_figure] is read statement by
    statement over a heap of figure objects, the objects alive in the process
    when the callback is called. The arrays [x], [y] and [head] are local
    values that nothing mutates. *)

Section Heap.
Context {A : Type} {py : PyNum A}.

(** The figure objects alive, by address. *)
Definition heap : Type := list (Figure.t A).

(** A computation reads and changes the heap. *)
Definition M (T : Type) : Type := heap -> T * heap.

Definition ret {T : Type} (v : T) : M T := fun h => (v, h).

Definition bind {T U : Type} (m : M T) (k : T -> M U) : M U :=
  fun h => let '(v, h') := m h in k v h'.

(** [go.Figure()]: a new object at a fresh address. *)
Definition go_Figure : M nat :=
  fun h => (length h, (h ++ [Figure_new])%list).

(** The object at address [r] replaced by [f] of it. *)
Definition store (r : nat) (f : Figure.t A -> Figure.t A) (h : heap) : heap :=
  match nth_error h r with
  | Some o => (firstn r h ++ f o :: skipn (S r) h)%list
  | None => h
  end.

(** A method that changes the object at address [r] in place. *)
Definition mutate (r : nat) (f : Figure.t A -> Figure.t A) : M unit :=
  fun h => (tt, store r f h).

(** What Dash reads off the returned figure to send it to the page. *)
Definition read (r : nat) : M (Figure.t A) :=
  fun h => (nth r h Figure_new, h).

(** [for v in l: body] *)
Fixpoint for_each {T : Type} (l : list T) (body : T -> M unit) : M unit :=
  match l with
  | [] => ret tt
  | v :: l' => bind (body v) (fun _ => for_each l' body)
  end.

End Heap.

Notation "x <- m ;; k" := (bind m (fun x => k))
  (at level 61, m at next level, right associativity).
Notation "m ;; k" := (bind m (fun _ => k))
  (at level 61, right associativity).

Section Run.
Context {A : Type} {py : PyNum A}.
Local Open Scope py_scope.

Definition update_figure_run
    (H W K head_left head_right
     excavation_depth_right excavation_depth_left : A) : M nat :=
  (* Create mesh grid *)
  let x := linspace (of_Z 0) W 100 in
  let y := linspace (of_Z 0) H 100 in
  let '(X, Y) := meshgrid x y in
  (* Calculate hydraulic head *)
  let head :=
    broadcast2 (fun X Y => hydraulic_head X Y W head_left head_right) X Y in
  (* Plotly setup *)
  fig <- go_Figure ;;
  (* Add excavation box on the right (lower) *)
  mutate fig (fun f => add_shape f
    {| Shape.type := "rect";
       Shape.x0 := W / of_Z 2; Shape.x1 := W;
       Shape.y0 := H; Shape.y1 := H - excavation_depth_right;
       Shape.line := {| Line.color := "Black"; Line.width := Some (of_Z 2) |};
       Shape.fillcolor := Some "white"; Shape.layer := Some "below" |}) ;;
  (* Add excavation box on the left (shallower or non-excavated) *)
  mutate fig (fun f => add_shape f
    {| Shape.type := "rect";
       Shape.x0 := of_Z 0; Shape.x1 := W / of_Z 2;
       Shape.y0 := H; Shape.y1 := H - excavation_depth_left;
       Shape.line := {| Line.color := "Black"; Line.width := Some (of_Z 2) |};
       Shape.fillcolor := Some "white"; Shape.layer := Some "below" |}) ;;
  (* Add sheetpile (vertical line separating the two sides) *)
  mutate fig (fun f => add_shape f
    {| Shape.type := "rect";
       Shape.x0 := (W / of_Z 2) - lit 5 1; Shape.x1 := W / of_Z 2;
       Shape.y0 := H;
       Shape.y1 := H - (excavation_depth_right
                        + (lit 1 1 * (H - excavation_depth_right)));
       Shape.line := {| Line.color := "gray"; Line.width := Some (of_Z 1) |};
       Shape.fillcolor := Some "gray"; Shape.layer := None |}) ;;
  (* Add equipotential lines (contours) *)
  mutate fig (fun f => add_trace f
    {| Trace.type := "contour";
       Trace.z := head; Trace.x := x; Trace.y := y;
       Trace.contours_coloring := "lines";
       Trace.showscale := false;
       Trace.line := {| Line.color := "blue"; Line.width := Some (of_Z 1) |}
    |}) ;;
  (* Add flow lines (manually specified for illustration) *)
  let flow_lines_x := linspace (of_Z 0) W 5 in
  for_each flow_lines_x (fun x_coord =>
    mutate fig (fun f => add_shape f
      {| Shape.type := "line";
         Shape.x0 := x_coord; Shape.x1 := x_coord;
         Shape.y0 := of_Z 0; Shape.y1 := H;
         Shape.line := {| Line.color := "orange";
                          Line.width := Some (lit 15 1) |};
         Shape.fillcolor := None; Shape.layer := None |})) ;;
  (* Set the axis limits *)
  mutate fig (fun f => update_layout f
    "Seepage Flow Around a Deep Excavation with Flow Net"
    "Width (m)" "Depth (m)" (of_Z 0, W) (of_Z 0, H) 600 900) ;;
  (* Add water level on the left (head_left) as a horizontal line *)
  mutate fig (fun f => add_shape f
    {| Shape.type := "line";
       Shape.x0 := of_Z 0; Shape.x1 := W / of_Z 2;
       Shape.y0 := head_left; Shape.y1 := head_left;
       Shape.line := {| Line.color := "blue"; Line.width := Some (of_Z 2) |};
       Shape.fillcolor := None; Shape.layer := Some "above" |}) ;;
  mutate fig (fun f => add_annotation f
    {| Annotation.x := W / of_Z 4; Annotation.y := head_left;
       Annotation.text :=
         [Text "Water Level (Left): "; Value head_left; Text " m"];
       Annotation.showarrow := false;
       Annotation.font_color := "blue" |}) ;;
  (* Add water level on the right (head_right) as a horizontal line *)
  mutate fig (fun f => add_shape f
    {| Shape.type := "line";
       Shape.x0 := W / of_Z 2; Shape.x1 := W;
       Shape.y0 := head_right; Shape.y1 := head_right;
       Shape.line := {| Line.color := "blue"; Line.width := Some (of_Z 2) |};
       Shape.fillcolor := None; Shape.layer := Some "above" |}) ;;
  mutate fig (fun f => add_annotation f
    {| Annotation.x := of_Z 3 * W / of_Z 4; Annotation.y := head_right;
       Annotation.text :=
         [Text "Water Level (Right): "; Value head_right; Text " m"];
       Annotation.showarrow := false;
       Annotation.font_color := "blue" |}) ;;
  ret fig.

(** One input event: Dash calls the callback with the slider values and
    reads the figure it returns. *)
Definition serve (i : Inputs.t A) : M (Figure.t A) :=
  fig <- update_figure_run
           (Inputs.depth_slider i) (Inputs.width_slider i)
           (Inputs.k_slider i) (Inputs.head_left_slider i)
           (Inputs.head_right_slider i)
           (Inputs.excavation_depth_right_slider i)
           (Inputs.excavation_depth_left_slider i) ;;
  read fig.

(** A run of the application: the events are served one after the other on
    the same heap. *)
Fixpoint serve_all (events : list (Inputs.t A)) : M (list (Figure.t A)) :=
  match events with
  | [] => ret []
  | i :: rest =>
      fig <- serve i ;;
      figs <- serve_all rest ;;
      ret (fig :: figs)
  end.

(** The right excavation deeper than the soil layer ends below zero and
    below its top. *)
Definition overdeep_check (H excavation_depth_right : A) : bool :=
  if ltb H excavation_depth_right
  then ltb (H - excavation_depth_right) (of_Z 0)
       && ltb (H - excavation_depth_right) H
  else true.

(** The labels of the water-level lines stand at the middle of the lines. *)
Definition midpoint_check (W : A) : bool :=
  eqb (W / of_Z 4) ((of_Z 0 + W / of_Z 2) / of_Z 2)
  && eqb (of_Z 3 * W / of_Z 4) ((W / of_Z 2 + W) / of_Z 2).

End Run.

(** ** Classes of binary64 numbers

    On the specification side of a binary64 number: a zero or a number with
    a mantissa and an exponent; a zero; neither a zero nor NaN. *)

Definition SF_is_finite (x : spec_float) : bool :=
  match x with
  | S754_zero _ | S754_finite _ _ _ => true
  | _ => false
  end.

Definition SF_is_zero (x : spec_float) : bool :=
  match x with
  | S754_zero _ => true
  | _ => false
  end.

Definition SF_is_divisor (x : spec_float) : bool :=
  match x with
  | S754_infinity _ | S754_finite _ _ _ => true
  | _ => false
  end.

(** Reading the operators of a term at the exact instance. *)
Ltac exact_arith :=
  cbn [of_Z add sub mul div eqb ltb leb PyNum_Q lit] in *.

(** * Properties *)

Open Scope list_scope.
Open Scope nat_scope.

(** ** Arrays *)

Section ArrayFacts.
Context {A : Type} {py : PyNum A}.

Lemma length_arange (num : nat) : length (arange num) = num.
Proof. unfold arange. now rewrite length_map, length_seq. Qed.

Lemma nth_arange (num j : nat) (d : A) :
  j < num -> nth j (arange num) d = of_Z (Z.of_nat j).
Proof.
  intros Hj. unfold arange.
  rewrite (nth_indep _ d (of_Z (Z.of_nat 0))) by now rewrite length_map, length_seq.
  rewrite (map_nth (fun i => of_Z (Z.of_nat i))), seq_nth by assumption.
  reflexivity.
Qed.

Lemma length_set_last (stop : A) (y : list A) :
  length (set_last stop y) = length y.
Proof.
  destruct y as [|a y]; [reflexivity|].
  unfold set_last. rewrite length_app, removelast_firstn_len, length_firstn.
  cbn [length Nat.pred]. lia.
Qed.

Lemma nth_set_last_end (stop d : A) (y : list A) :
  y <> [] -> nth (length y - 1) (set_last stop y) d = stop.
Proof.
  intros Hy. destruct y as [|a y]; [congruence|].
  unfold set_last. rewrite app_nth2.
  - rewrite removelast_firstn_len, length_firstn. cbn [length Nat.pred].
    replace (S (length y) - 1 - Nat.min (length y) (S (length y))) with 0 by lia.
    reflexivity.
  - rewrite removelast_firstn_len, length_firstn. cbn [length Nat.pred]. lia.
Qed.

Lemma nth_set_last_inner (stop d : A) (y : list A) (j : nat) :
  S j < length y -> nth j (set_last stop y) d = nth j y d.
Proof.
  intros Hj. destruct y as [|a y]; [cbn in Hj; lia|].
  unfold set_last. rewrite app_nth1.
  - rewrite removelast_firstn_len. cbn [length Nat.pred].
    now rewrite nth_firstn, (proj2 (Nat.ltb_lt _ _)) by (cbn [length] in Hj; lia).
  - rewrite removelast_firstn_len, length_firstn. cbn [length Nat.pred] in *. lia.
Qed.

Lemma length_linspace (start stop : A) (num : nat) :
  length (linspace start stop num) = num.
Proof.
  unfold linspace. rewrite length_set_last, length_map.
  destruct (eqb _ _); now rewrite length_map, length_arange.
Qed.

(** The last sample is [stop] itself. *)
Lemma linspace_end (start stop d : A) (num : nat) :
  0 < num -> nth (num - 1) (linspace start stop num) d = stop.
Proof.
  intros Hn. unfold linspace.
  set (y := map _ _).
  assert (Hy : length y = num).
  { unfold y. rewrite length_map. destruct (eqb _ _); now rewrite length_map, length_arange. }
  rewrite <- Hy at 1. apply nth_set_last_end.
  intros E. rewrite E in Hy. cbn in Hy. lia.
Qed.

(** The samples before the last are [i*step + start]. *)
Lemma linspace_inner (start stop d : A) (num j : nat) :
  S j < num ->
  nth j (linspace start stop num) d =
  let dv := of_Z (Z.of_nat (num - 1)) in
  let delta := (stop - start)%py in
  if eqb (delta / dv)%py (of_Z 0)
  then (of_Z (Z.of_nat j) / dv * delta + start)%py
  else (of_Z (Z.of_nat j) * (delta / dv) + start)%py.
Proof.
  intros Hj. unfold linspace. cbv zeta.
  rewrite nth_set_last_inner
    by (rewrite length_map; destruct (eqb _ _); now rewrite length_map, length_arange).
  rewrite (nth_indep _ d ((fun v => (v + start)%py) d))
    by (rewrite length_map; destruct (eqb _ _); rewrite length_map, length_arange; lia).
  rewrite (map_nth (fun v => (v + start)%py)).
  destruct (eqb _ _).
  - rewrite (nth_indep _ d ((fun v => (v / of_Z (Z.of_nat (num - 1)) * (stop - start))%py) d))
      by (rewrite length_map, length_arange; lia).
    rewrite (map_nth (fun v => (v / of_Z (Z.of_nat (num - 1)) * (stop - start))%py)).
    now rewrite nth_arange by lia.
  - rewrite (nth_indep _ d ((fun v => (v * ((stop - start) / of_Z (Z.of_nat (num - 1))))%py) d))
      by (rewrite length_map, length_arange; lia).
    rewrite (map_nth (fun v => (v * ((stop - start) / of_Z (Z.of_nat (num - 1))))%py)).
    now rewrite nth_arange by lia.
Qed.

(** Row [i] of an expression over the mesh grid: [f (x[j]) (y[i])] for each
    [j]. *)
Lemma row_broadcast2_meshgrid (f : A -> A -> A) (x y : list A) (i : nat) (d : A) :
  i < length y ->
  nth i (broadcast2 f (fst (meshgrid x y)) (snd (meshgrid x y))) [] =
  map (fun xj => f xj (nth i y d)) x.
Proof.
  intros Hi. cbn [meshgrid fst snd]. unfold broadcast2.
  set (g := fun r : list A * list A => _).
  rewrite (nth_indep _ [] (g ([], []))) by
    now rewrite length_map, length_combine, !length_map, Nat.min_id.
  rewrite (map_nth g), combine_nth by now rewrite !length_map.
  rewrite (nth_indep (map (fun _ => x) y) [] ((fun _ => x) d))
    by now rewrite length_map.
  rewrite (map_nth (fun _ : A => x) y d).
  rewrite (nth_indep (map _ y) [] ((fun yi => map (fun _ => yi) x) d))
    by now rewrite length_map.
  rewrite (map_nth (fun yi => map (fun _ : A => yi) x)).
  unfold g. cbn [fst snd].
  generalize (nth i y d). intros yi. clear.
  induction x as [|a x IH]; cbn; [reflexivity|]. now rewrite IH.
Qed.

End ArrayFacts.

(** ** The figure the callback builds

    Each Plotly call touches one part of the figure; the lemmas below say what
    it leaves alone, and the three that follow read off the shapes, the
    annotations and the traces of the returned figure. *)

Section Filters.
Context {A B : Type}.

Lemma filter_map_always (p : B -> bool) (f : A -> B) (l : list A) :
  (forall x, p (f x) = true) -> filter p (map f l) = map f l.
Proof.
  intros Hp. induction l as [|x l IH]; cbn; [reflexivity|].
  now rewrite Hp, IH.
Qed.

Lemma filter_map_never (p : B -> bool) (f : A -> B) (l : list A) :
  (forall x, p (f x) = false) -> filter p (map f l) = [].
Proof.
  intros Hp. induction l as [|x l IH]; cbn; [reflexivity|].
  now rewrite Hp, IH.
Qed.

End Filters.

Section FigureFacts.
Context {A : Type}.
Implicit Types (fig : Figure.t A) (s : Shape.t A) (a : Annotation.t A)
               (t : Trace.t A).

Lemma shapes_new : shapes (@Figure_new A) = [].
Proof. reflexivity. Qed.

Lemma shapes_add_shape fig s : shapes (add_shape fig s) = shapes fig ++ [s].
Proof. reflexivity. Qed.

Lemma shapes_add_trace fig t : shapes (add_trace fig t) = shapes fig.
Proof. reflexivity. Qed.

Lemma shapes_add_annotation fig a : shapes (add_annotation fig a) = shapes fig.
Proof. reflexivity. Qed.

Lemma shapes_update_layout fig ti xt yt xr yr h w :
  shapes (update_layout fig ti xt yt xr yr h w) = shapes fig.
Proof. reflexivity. Qed.

Lemma shapes_fold_add_shape (f : A -> Shape.t A) (l : list A) fig :
  shapes (fold_left (fun fig x => add_shape fig (f x)) l fig) =
  shapes fig ++ map f l.
Proof.
  revert fig. induction l as [|x l IH]; intros fig; cbn [fold_left map].
  - now rewrite app_nil_r.
  - rewrite IH, shapes_add_shape, <- app_assoc. reflexivity.
Qed.

Lemma annotations_add_shape fig s :
  annotations (add_shape fig s) = annotations fig.
Proof. reflexivity. Qed.

Lemma annotations_add_trace fig t :
  annotations (add_trace fig t) = annotations fig.
Proof. reflexivity. Qed.

Lemma annotations_add_annotation fig a :
  annotations (add_annotation fig a) = annotations fig ++ [a].
Proof. reflexivity. Qed.

Lemma annotations_update_layout fig ti xt yt xr yr h w :
  annotations (update_layout fig ti xt yt xr yr h w) = annotations fig.
Proof. reflexivity. Qed.

Lemma annotations_fold_add_shape (f : A -> Shape.t A) (l : list A) fig :
  annotations (fold_left (fun fig x => add_shape fig (f x)) l fig) =
  annotations fig.
Proof.
  revert fig. induction l as [|x l IH]; intros fig; cbn [fold_left];
    [reflexivity|]. now rewrite IH.
Qed.

Lemma data_add_shape fig s : Figure.data (add_shape fig s) = Figure.data fig.
Proof. reflexivity. Qed.

Lemma data_add_trace fig t :
  Figure.data (add_trace fig t) = Figure.data fig ++ [t].
Proof. reflexivity. Qed.

Lemma data_add_annotation fig a :
  Figure.data (add_annotation fig a) = Figure.data fig.
Proof. reflexivity. Qed.

Lemma data_update_layout fig ti xt yt xr yr h w :
  Figure.data (update_layout fig ti xt yt xr yr h w) = Figure.data fig.
Proof. reflexivity. Qed.

Lemma data_fold_add_shape (f : A -> Shape.t A) (l : list A) fig :
  Figure.data (fold_left (fun fig x => add_shape fig (f x)) l fig) =
  Figure.data fig.
Proof.
  revert fig. induction l as [|x l IH]; intros fig; cbn [fold_left];
    [reflexivity|]. now rewrite IH.
Qed.

Lemma frame_add_shape fig s : frame (add_shape fig s) = frame fig.
Proof. reflexivity. Qed.

Lemma frame_add_trace fig t : frame (add_trace fig t) = frame fig.
Proof. reflexivity. Qed.

Lemma frame_add_annotation fig a : frame (add_annotation fig a) = frame fig.
Proof. reflexivity. Qed.

Lemma frame_update_layout fig ti xt yt xr yr h w :
  frame (update_layout fig ti xt yt xr yr h w) =
  (Some ti,
   {| Axis.title := Some xt; Axis.range := Some xr |},
   {| Axis.title := Some yt; Axis.range := Some yr |},
   Some h, Some w).
Proof. reflexivity. Qed.

End FigureFacts.

Create Rewrite HintDb figure.

#[local] Hint Rewrite
  @shapes_new @shapes_add_shape @shapes_add_trace @shapes_add_annotation
  @shapes_update_layout @shapes_fold_add_shape
  @annotations_add_shape @annotations_add_trace @annotations_add_annotation
  @annotations_update_layout @annotations_fold_add_shape
  @data_add_shape @data_add_trace @data_add_annotation @data_update_layout
  @data_fold_add_shape
  @frame_add_shape @frame_add_trace @frame_add_annotation
  @frame_update_layout : figure.

Section CallbackFacts.
Context {A : Type} {py : PyNum A}.
Variables (H W K head_left head_right : A).
Variables (excavation_depth_right excavation_depth_left : A).

Local Abbreviation fig :=
  (update_figure H W K head_left head_right
                 excavation_depth_right excavation_depth_left).

Local Abbreviation right_box :=
  {| Shape.type := "rect";
     Shape.x0 := (W / of_Z 2)%py; Shape.x1 := W;
     Shape.y0 := H; Shape.y1 := (H - excavation_depth_right)%py;
     Shape.line := {| Line.color := "Black"; Line.width := Some (of_Z 2) |};
     Shape.fillcolor := Some "white"; Shape.layer := Some "below" |}.

Local Abbreviation left_box :=
  {| Shape.type := "rect";
     Shape.x0 := of_Z 0; Shape.x1 := (W / of_Z 2)%py;
     Shape.y0 := H; Shape.y1 := (H - excavation_depth_left)%py;
     Shape.line := {| Line.color := "Black"; Line.width := Some (of_Z 2) |};
     Shape.fillcolor := Some "white"; Shape.layer := Some "below" |}.

Local Abbreviation pile_box :=
  {| Shape.type := "rect";
     Shape.x0 := (W / of_Z 2 - lit 5 1)%py; Shape.x1 := (W / of_Z 2)%py;
     Shape.y0 := H;
     Shape.y1 := (H - (excavation_depth_right
                       + lit 1 1 * (H - excavation_depth_right)))%py;
     Shape.line := {| Line.color := "gray"; Line.width := Some (of_Z 1) |};
     Shape.fillcolor := Some "gray"; Shape.layer := None |}.

Local Abbreviation flow_segment :=
  (fun x_coord : A =>
     {| Shape.type := "line";
        Shape.x0 := x_coord; Shape.x1 := x_coord;
        Shape.y0 := of_Z 0; Shape.y1 := H;
        Shape.line := {| Line.color := "orange";
                         Line.width := Some (lit 15 1) |};
        Shape.fillcolor := None; Shape.layer := None |}).

Local Abbreviation water_left_segment :=
  {| Shape.type := "line";
     Shape.x0 := of_Z 0; Shape.x1 := (W / of_Z 2)%py;
     Shape.y0 := head_left; Shape.y1 := head_left;
     Shape.line := {| Line.color := "blue"; Line.width := Some (of_Z 2) |};
     Shape.fillcolor := None; Shape.layer := Some "above" |}.

Local Abbreviation water_right_segment :=
  {| Shape.type := "line";
     Shape.x0 := (W / of_Z 2)%py; Shape.x1 := W;
     Shape.y0 := head_right; Shape.y1 := head_right;
     Shape.line := {| Line.color := "blue"; Line.width := Some (of_Z 2) |};
     Shape.fillcolor := None; Shape.layer := Some "above" |}.

(** The shapes, in the order they are added: the two excavation boxes, the
    sheet pile, one orange segment per entry of [linspace(0, W, 5)], and the
    two water-level segments. *)
Lemma update_figure_shapes :
  shapes fig =
    [right_box; left_box; pile_box]
    ++ map flow_segment (linspace (of_Z 0) W 5)
    ++ [water_left_segment; water_right_segment].
Proof.
  unfold update_figure. cbn [meshgrid]. autorewrite with figure.
  cbn [app]. rewrite <- !app_assoc. reflexivity.
Qed.

Lemma update_figure_rectangles :
  rectangles fig = [right_box; left_box; pile_box].
Proof.
  unfold rectangles. rewrite update_figure_shapes, !filter_app.
  rewrite filter_map_never by reflexivity. reflexivity.
Qed.

Lemma update_figure_line_shapes :
  line_shapes fig =
    map flow_segment (linspace (of_Z 0) W 5)
    ++ [water_left_segment; water_right_segment].
Proof.
  unfold line_shapes. rewrite update_figure_shapes, !filter_app.
  rewrite filter_map_always by reflexivity. reflexivity.
Qed.

Lemma update_figure_flow_lines :
  flow_lines fig = map flow_segment (linspace (of_Z 0) W 5).
Proof.
  unfold flow_lines. rewrite update_figure_line_shapes, filter_app.
  rewrite filter_map_always by reflexivity. cbn. apply app_nil_r.
Qed.

Lemma update_figure_water_lines :
  water_lines fig = [water_left_segment; water_right_segment].
Proof.
  unfold water_lines. rewrite update_figure_line_shapes, filter_app.
  rewrite filter_map_never by reflexivity. reflexivity.
Qed.

Lemma update_figure_annotations :
  annotations fig =
    [ {| Annotation.x := (W / of_Z 4)%py; Annotation.y := head_left;
         Annotation.text :=
           [Text "Water Level (Left): "; Value head_left; Text " m"];
         Annotation.showarrow := false; Annotation.font_color := "blue" |};
      {| Annotation.x := (of_Z 3 * W / of_Z 4)%py; Annotation.y := head_right;
         Annotation.text :=
           [Text "Water Level (Right): "; Value head_right; Text " m"];
         Annotation.showarrow := false; Annotation.font_color := "blue" |} ].
Proof.
  unfold update_figure. cbn [meshgrid]. autorewrite with figure. reflexivity.
Qed.

(** The one trace: the contour of the head evaluated over the mesh grid. *)
Lemma update_figure_data :
  exists t,
    Figure.data fig = [t]
    /\ Trace.type t = "contour"
    /\ Trace.x t = linspace (of_Z 0) W 100
    /\ Trace.y t = linspace (of_Z 0) H 100
    /\ Trace.z t =
         broadcast2 (fun X Y => hydraulic_head X Y W head_left head_right)
           (fst (meshgrid (Trace.x t) (Trace.y t)))
           (snd (meshgrid (Trace.x t) (Trace.y t))).
Proof.
  eexists. split.
  - unfold update_figure. cbn [meshgrid]. autorewrite with figure.
    cbn [app]. reflexivity.
  - repeat split.
Qed.

Lemma update_figure_frame :
  frame fig =
    (Some "Seepage Flow Around a Deep Excavation with Flow Net",
     {| Axis.title := Some "Width (m)"; Axis.range := Some (of_Z 0, W) |},
     {| Axis.title := Some "Depth (m)"; Axis.range := Some (of_Z 0, H) |},
     Some 600%Z, Some 900%Z).
Proof.
  unfold update_figure. cbn [meshgrid]. autorewrite with figure. reflexivity.
Qed.

(** The head field has one row per sample of [y]; row [i] holds the head at
    each sample of [x], whatever [i] is. *)
Lemma update_figure_contour_z :
  contour_z fig =
    map (fun yi =>
           map (fun xj => hydraulic_head xj yi W head_left head_right)
               (linspace (of_Z 0) W 100))
        (linspace (of_Z 0) H 100).
Proof.
  destruct update_figure_data as (t & Hd & Ht & Hx & Hy & Hz).
  unfold contour_z, contours. rewrite Hd. cbn [filter]. rewrite Ht.
  cbn [String.eqb Ascii.eqb Bool.eqb]. rewrite Hz, Hx, Hy.
  apply nth_ext with (d := []) (d' := []).
  - cbn [meshgrid fst snd]. unfold broadcast2.
    now rewrite length_map, length_combine, !length_map, Nat.min_id.
  - intros i Hi.
    assert (Hi' : i < length (linspace (of_Z 0) H 100)).
    { cbn [meshgrid fst snd] in Hi. unfold broadcast2 in Hi.
      now rewrite length_map, length_combine, !length_map, Nat.min_id in Hi. }
    rewrite (row_broadcast2_meshgrid _ _ _ (of_Z 0) Hi').
    rewrite (nth_indep _ [] ((fun yi => map (fun xj => hydraulic_head xj yi W head_left head_right) (linspace (of_Z 0) W 100)) (of_Z 0)))
      by now rewrite length_map.
    now rewrite (map_nth (fun yi => map (fun xj => hydraulic_head xj yi W head_left head_right) (linspace (of_Z 0) W 100))).
Qed.

End CallbackFacts.

Section HeadField.
Context {A : Type} {py : PyNum A}.

(** The head never looks at its [Y] argument. *)
Lemma hydraulic_head_Y (X Y Y' W head_left head_right : A) :
  hydraulic_head X Y W head_left head_right =
  hydraulic_head X Y' W head_left head_right.
Proof. reflexivity. Qed.

Lemma length_contour_z (H W K hl hr edr edl : A) :
  length (contour_z (update_figure H W K hl hr edr edl)) = 100.
Proof. now rewrite update_figure_contour_z, length_map, length_linspace. Qed.

Lemma length_contour_z_row (H W K hl hr edr edl : A) (i : nat) :
  i < 100 ->
  length (nth i (contour_z (update_figure H W K hl hr edr edl)) []) = 100.
Proof.
  intros Hi. rewrite update_figure_contour_z.
  rewrite (nth_indep _ [] ((fun yi => map (fun xj => hydraulic_head xj yi W hl hr) (linspace (of_Z 0) W 100)) (of_Z 0)))
    by now rewrite length_map, length_linspace.
  rewrite (map_nth (fun yi => map (fun xj => hydraulic_head xj yi W hl hr) (linspace (of_Z 0) W 100))).
  now rewrite length_map, length_linspace.
Qed.

(** Every row of the head field is the head along the samples of x. *)
Lemma contour_z_row (H W K hl hr edr edl : A) (i : nat) :
  i < 100 ->
  nth i (contour_z (update_figure H W K hl hr edr edl)) [] =
  map (fun xj => hydraulic_head xj (of_Z 0) W hl hr) (linspace (of_Z 0) W 100).
Proof.
  intros Hi. rewrite update_figure_contour_z.
  rewrite (nth_indep _ [] ((fun yi => map (fun xj => hydraulic_head xj yi W hl hr) (linspace (of_Z 0) W 100)) (of_Z 0)))
    by now rewrite length_map, length_linspace.
  now rewrite (map_nth (fun yi => map (fun xj => hydraulic_head xj yi W hl hr) (linspace (of_Z 0) W 100))).
Qed.

(** Entry [i][j] of the head field is the head at the [j]-th sample of x. *)
Lemma contour_z_entry (H W K hl hr edr edl : A) (i j : nat) :
  i < 100 -> j < 100 ->
  entry (contour_z (update_figure H W K hl hr edr edl)) i j =
  hydraulic_head (sample W 100 j) (sample H 100 i) W hl hr.
Proof.
  intros Hi Hj. unfold entry, sample. rewrite update_figure_contour_z.
  rewrite (nth_indep _ [] ((fun yi => map (fun xj => hydraulic_head xj yi W hl hr) (linspace (of_Z 0) W 100)) (of_Z 0)))
    by now rewrite length_map, length_linspace.
  rewrite (map_nth (fun yi => map (fun xj => hydraulic_head xj yi W hl hr) (linspace (of_Z 0) W 100))).
  rewrite (nth_indep _ (of_Z 0) ((fun xj => hydraulic_head xj (nth i (linspace (of_Z 0) H 100) (of_Z 0)) W hl hr) (of_Z 0)))
    by now rewrite length_map, length_linspace.
  now rewrite (map_nth (fun xj => hydraulic_head xj (nth i (linspace (of_Z 0) H 100) (of_Z 0)) W hl hr)).
Qed.

End HeadField.

(** ** Exact arithmetic *)

Section Exact.
Local Open Scope Q_scope.

(** The samples of [linspace(0, stop, num)] are evenly spaced:
    the [j]-th is [j * stop / (num - 1)]. *)
Lemma sample_Q (stop : Q) (num j : nat) :
  (1 < num)%nat -> (j < num)%nat ->
  sample stop num j ==
  inject_Z (Z.of_nat j) * stop / inject_Z (Z.of_nat (num - 1)).
Proof.
  intros Hn Hj. unfold sample.
  assert (Hd : ~ inject_Z (Z.of_nat (num - 1)) == 0).
  { unfold Qeq. cbn. lia. }
  destruct (Nat.eq_dec j (num - 1)) as [->|Hne].
  - rewrite linspace_end by lia. field. exact Hd.
  - rewrite linspace_inner by lia. cbv zeta. exact_arith.
    destruct (Qeq_bool _ _); field; exact Hd.
Qed.

Lemma sample_Q_first (stop : Q) (num : nat) :
  (1 < num)%nat -> sample stop num 0 == 0.
Proof.
  intros Hn. rewrite sample_Q by lia. cbn [Z.of_nat].
  unfold Qdiv. ring.
Qed.

Lemma sample_Q_last (stop : Q) (num : nat) :
  (0 < num)%nat -> sample stop num (num - 1) = stop.
Proof. intros Hn. unfold sample. now apply linspace_end. Qed.

Lemma hydraulic_head_Q (X Y W hl hr : Q) :
  hydraulic_head X Y W hl hr = hl - (hl - hr) * X / W.
Proof. reflexivity. Qed.

Lemma hydraulic_head_left (Y W hl hr : Q) :
  hydraulic_head 0 Y W hl hr == hl.
Proof. rewrite hydraulic_head_Q. unfold Qdiv. ring. Qed.

Lemma hydraulic_head_right (Y W hl hr : Q) :
  0 < W -> hydraulic_head W Y W hl hr == hr.
Proof.
  intros HW. rewrite hydraulic_head_Q. field.
  intros E. rewrite E in HW. now apply Qlt_irrefl in HW.
Qed.

(** The head is affine in [X], with slope [-(hl - hr)/W]. *)
Lemma hydraulic_head_diff (X X' Y Y' W hl hr : Q) :
  0 < W ->
  hydraulic_head X Y W hl hr - hydraulic_head X' Y' W hl hr ==
  (hl - hr) * ((X' - X) / W).
Proof.
  intros HW. rewrite !hydraulic_head_Q. field.
  intros E. rewrite E in HW. now apply Qlt_irrefl in HW.
Qed.

Lemma Qdiv_nonneg (a b : Q) : 0 <= a -> 0 < b -> 0 <= a / b.
Proof.
  intros Ha Hb. apply Qle_shift_div_l; [assumption|]. now rewrite Qmult_0_l.
Qed.

Lemma hydraulic_head_decreasing (X X' Y Y' W hl hr : Q) :
  0 < W -> hr <= hl -> X <= X' ->
  hydraulic_head X' Y' W hl hr <= hydraulic_head X Y W hl hr.
Proof.
  intros HW Hh HX.
  assert (D := hydraulic_head_diff X X' Y Y' hl hr HW).
  assert (0 <= (hl - hr) * ((X' - X) / W)).
  { apply Qmult_le_0_compat; [lra|]. apply Qdiv_nonneg; lra. }
  lra.
Qed.

Lemma hydraulic_head_increasing (X X' Y Y' W hl hr : Q) :
  0 < W -> hl <= hr -> X <= X' ->
  hydraulic_head X Y W hl hr <= hydraulic_head X' Y' W hl hr.
Proof.
  intros HW Hh HX.
  assert (D := hydraulic_head_diff X' X Y' Y hl hr HW).
  assert (0 <= (hr - hl) * ((X' - X) / W)).
  { apply Qmult_le_0_compat; [lra|]. apply Qdiv_nonneg; lra. }
  assert ((hl - hr) * ((X - X') / W) == (hr - hl) * ((X' - X) / W)).
  { field. intros E. rewrite E in HW. now apply Qlt_irrefl in HW. }
  lra.
Qed.

End Exact.

(** ** Binary64 on the slider values

    The interpreter computes in binary64, where every operation rounds. The
    same definitions, read at [float], are evaluated here for every value the
    sliders can supply. On these values the head meets both boundary values
    bit for bit, every row of the field is monotone and stays between the two
    heads, the sheet pile ends below the right excavation, and the flow lines
    stand at the quarter points. *)

Section Binary64.

Lemma Forall_forallb {T : Type} (p : T -> bool) (l : list T) :
  forallb p l = true -> Forall (fun x => p x = true) l.
Proof. intros E. apply Forall_forall. now apply forallb_forall. Qed.

(** For all values of the width and head sliders, the head at [x = 0] [==]
    [head_left] and the head at [x = W] [==] [head_right]. *)
Lemma binary64_boundary_values :
  Forall (fun W : float =>
    Forall (fun head_left : float =>
      Forall (fun head_right : float =>
        boundary_check W head_left head_right = true)
      head_right_slider_values)
    head_left_slider_values)
  width_slider_values.
Proof.
  apply Forall_forall. intros W HW.
  apply Forall_forall. intros hl Hl.
  apply Forall_forall. intros hr Hr.
  revert hr Hr. apply forallb_forall.
  revert hl Hl. apply (forallb_forall (fun hl => forallb (fun hr => boundary_check W hl hr) head_right_slider_values)).
  revert W HW. apply (forallb_forall (fun W => forallb (fun hl => forallb (fun hr => boundary_check W hl hr) head_right_slider_values) head_left_slider_values)).
  vm_compute. reflexivity.
Qed.

Lemma binary64_head_rows_check :
  forallb (fun W : float =>
    let xs := linspace (of_Z 0) W 100 in
    forallb (fun head_left : float =>
      forallb (fun head_right : float =>
        row_check head_left head_right
          (map (fun xj => hydraulic_head xj (of_Z 0) W head_left head_right)
               xs))
      head_right_slider_values)
    head_left_slider_values)
  width_slider_values = true.
Proof. vm_compute. reflexivity. Qed.

(** For all values of the width and head sliders and any other parameters,
    every row of the contour's z-data starts at [head_left], ends at
    [head_right], is monotone and stays between the two heads. *)
Lemma binary64_head_rows :
  Forall (fun W : float =>
    Forall (fun head_left : float =>
      Forall (fun head_right : float =>
        forall (H K excavation_depth_right excavation_depth_left : float)
               (i : nat),
          i < 100 ->
          row_check head_left head_right
            (nth i (contour_z (update_figure H W K head_left head_right
                                 excavation_depth_right excavation_depth_left))
                 []) = true)
      head_right_slider_values)
    head_left_slider_values)
  width_slider_values.
Proof.
  pose proof binary64_head_rows_check as C.
  apply Forall_forall. intros W HW.
  apply Forall_forall. intros hl Hl.
  apply Forall_forall. intros hr Hr.
  intros H K edr edl i Hi. rewrite contour_z_row by assumption.
  rewrite forallb_forall in C. specialize (C W HW).
  rewrite forallb_forall in C. specialize (C hl Hl).
  rewrite forallb_forall in C. exact (C hr Hr).
Qed.

Lemma binary64_depths_check :
  forallb (fun H : float =>
    forallb (fun excavation_depth_right : float =>
      depth_check H excavation_depth_right)
    excavation_depth_right_slider_values)
  depth_slider_values = true.
Proof. vm_compute. reflexivity. Qed.

(** X1. In binary64, for all values of the depth and right excavation
    sliders: an excavation shallower than [H] has the sheet pile end below
    its floor, and one deeper than [H] has its floor below zero. *)
Lemma binary64_depths :
  Forall (fun H : float =>
    Forall (fun excavation_depth_right : float =>
      forall W K head_left head_right excavation_depth_left : float,
      exists pile right,
        let fig := update_figure H W K head_left head_right
                     excavation_depth_right excavation_depth_left in
        sheetpile fig = Some pile
        /\ excavation_right fig = Some right
        /\ (ltb excavation_depth_right H = true ->
            ltb (Shape.y1 pile) (Shape.y1 right) = true)
        /\ (ltb H excavation_depth_right = true ->
            ltb (Shape.y1 right) (of_Z 0) = true))
    excavation_depth_right_slider_values)
  depth_slider_values.
Proof.
  pose proof binary64_depths_check as C.
  apply Forall_forall. intros H HH.
  apply Forall_forall. intros d Hd.
  intros W K hl hr edl. cbv zeta. unfold sheetpile, excavation_right.
  rewrite update_figure_rectangles. cbn [nth_error].
  do 2 eexists. do 2 (split; [reflexivity|]). cbn [Shape.y1].
  rewrite forallb_forall in C. specialize (C H HH).
  rewrite forallb_forall in C. specialize (C d Hd).
  unfold depth_check in C. cbv zeta in C.
  apply andb_prop in C. destruct C as [C1 C2].
  split; intros E.
  - now rewrite E in C1.
  - now rewrite E in C2.
Qed.

(** X2. In binary64, for all values of the width slider, the flow lines
    stand at [linspace(0, W, 5)], which is [0], [W/4], [W/2], [3*W/4], [W]. *)
Lemma binary64_quarter_points :
  Forall (fun W : float =>
    quarter_check W = true
    /\ forall H K head_left head_right
              excavation_depth_right excavation_depth_left : float,
         map (@Shape.x0 float)
             (flow_lines (update_figure H W K head_left head_right
                            excavation_depth_right excavation_depth_left))
         = linspace (of_Z 0) W 5)
  width_slider_values.
Proof.
  assert (C : forallb (fun W : float => quarter_check W) width_slider_values
              = true) by (vm_compute; reflexivity).
  apply Forall_forall. intros W HW. split.
  - rewrite forallb_forall in C. exact (C W HW).
  - intros. rewrite update_figure_flow_lines, map_map. cbn [Shape.x0].
    apply map_id.
Qed.

End Binary64.

(** ** The head field (claims C1 to C4) *)

Section HeadClaims.
Local Open Scope Q_scope.

(** C1. For every render call with [W > 0], the z-data of the contour layer
    is a 100 by 100 array whose entry at row [i], column [j] equals
    [head_left - (head_left - head_right) * x_j / W], where [x_0 .. x_99] are
    the 100 evenly spaced samples of [0, W] (so [x_j = j*W/99], from [0] to
    [W]); the value does not depend on the row index. *)
Theorem contour_z_is_linear_head
    (H W K head_left head_right
     excavation_depth_right excavation_depth_left : Q) :
  0 < W ->
  let z := contour_z (update_figure H W K head_left head_right
                        excavation_depth_right excavation_depth_left) in
  length z = 100%nat
  /\ (forall i, (i < 100)%nat -> length (nth i z []) = 100%nat)
  /\ (forall i j, (i < 100)%nat -> (j < 100)%nat ->
        let x_j := sample W 100 j in
        x_j == inject_Z (Z.of_nat j) * W / 99
        /\ entry z i j == head_left - (head_left - head_right) * x_j / W)
  /\ sample W 100 0 == 0
  /\ sample W 100 99 == W
  /\ (forall i i' j, (i < 100)%nat -> (i' < 100)%nat -> (j < 100)%nat ->
        entry z i j = entry z i' j).
Proof.
  intros HW z. subst z.
  split; [apply length_contour_z|].
  split; [intros i Hi; now apply length_contour_z_row|].
  split; [|split; [|split]].
  - intros i j Hi Hj x_j. subst x_j. split.
    + apply sample_Q; lia.
    + rewrite contour_z_entry by assumption. now rewrite hydraulic_head_Q.
  - apply sample_Q_first. lia.
  - assert (E : sample W 100 99 = W)
      by (apply (sample_Q_last W (num := 100)); lia).
    now rewrite E.
  - intros i i' j Hi Hi' Hj. rewrite !contour_z_entry by assumption.
    apply hydraulic_head_Y.
Qed.

Lemma contour_z_is_linear_head_witness :
  0 < 20
  /\ entry (contour_z (update_figure 10 20 (1 # 100000) 8 5 5 0)) 7 33
     == 8 - (8 - 5) * sample 20 100 33 / 20
  /\ sample 20 100 33 == 33 * 20 / 99.
Proof.
  split; [reflexivity|].
  destruct (contour_z_is_linear_head 10 (W := 20) (1 # 100000) 8 5 5 0 eq_refl)
    as (_ & _ & E & _).
  destruct (E 7%nat 33%nat ltac:(lia) ltac:(lia)) as [Ex Ez].
  split; [exact Ez | exact Ex].
Defined.

(** C2, as stated, fails for the numbers the program computes with. In
    binary64, with [W = 1], [head_left = 0.4] and [head_right = 0.1]:
    [head_left - head_right] rounds to 0.30000000000000004, multiplying and
    dividing by [W = 1] changes nothing, and [0.4 - 0.30000000000000004] is
    0.09999999999999998, which is not [head_right]. *)
Lemma binary64_head_at_W_is_rounded :
  let W : float := of_Z 1 in
  let head_left : float := lit 4 1 in
  let head_right : float := lit 1 1 in
  ltb (of_Z 0) W = true
  /\ (head_left - head_right)%py = 0x1.3333333333334p-2%float
  /\ hydraulic_head W (of_Z 0) W head_left head_right
     = 0x1.9999999999998p-4%float
  /\ eqb (hydraulic_head W (of_Z 0) W head_left head_right) head_right = false
  /\ hydraulic_head W (of_Z 0) W head_left head_right <> head_right.
Proof.
  cbv zeta. do 4 (split; [vm_compute; reflexivity|]).
  intros E.
  apply (f_equal (fun v : float => PrimFloat.eqb v (lit 1 1))) in E.
  vm_compute in E. discriminate E.
Qed.

(** C4, as stated, fails for the numbers the program computes with. In
    binary64, with [W = 1], [head_left = 0.4 >= head_right = 0.1] and
    [x = W], a point of [0, W], the head is 0.09999999999999998: below
    [head_right], so not between the two heads. *)
Lemma binary64_head_at_W_below_head_right :
  let W : float := of_Z 1 in
  let head_left : float := lit 4 1 in
  let head_right : float := lit 1 1 in
  let head := hydraulic_head W (of_Z 0) W head_left head_right in
  ltb (of_Z 0) W = true
  /\ leb head_right head_left = true
  /\ between (of_Z 0) W W = true
  /\ head = 0x1.9999999999998p-4%float
  /\ ltb head head_right = true
  /\ between head_right head_left head = false.
Proof. cbv zeta. repeat (split; [vm_compute; reflexivity|]). vm_compute. reflexivity. Qed.

(** C4, amended. In exact arithmetic, for every [W > 0]: when
    [head_left >= head_right] the head is non-increasing in x on [0, W], when
    [head_left <= head_right] it is non-decreasing, and in either case its
    value at each x of [0, W] lies between [head_left] and [head_right]. In
    binary64 this holds, for every value of the width and head sliders, of
    the heads at the 100 samples of x: every row of the field starts at
    [head_left], ends at [head_right], is monotone in that direction and
    stays between the two; for other numbers the head at [x = W] can round
    to a value just outside. *)
Theorem head_monotone_between :
  (forall Y W head_left head_right : Q,
     0 < W ->
     (head_right <= head_left ->
        (forall X X', 0 <= X -> X <= X' -> X' <= W ->
           hydraulic_head X' Y W head_left head_right
           <= hydraulic_head X Y W head_left head_right)
        /\ (forall X, 0 <= X -> X <= W ->
             head_right <= hydraulic_head X Y W head_left head_right
             /\ hydraulic_head X Y W head_left head_right <= head_left))
     /\ (head_left <= head_right ->
        (forall X X', 0 <= X -> X <= X' -> X' <= W ->
           hydraulic_head X Y W head_left head_right
           <= hydraulic_head X' Y W head_left head_right)
        /\ (forall X, 0 <= X -> X <= W ->
             head_left <= hydraulic_head X Y W head_left head_right
             /\ hydraulic_head X Y W head_left head_right <= head_right)))
  /\ Forall (fun W : float =>
       Forall (fun head_left : float =>
         Forall (fun head_right : float =>
           forall (H K excavation_depth_right excavation_depth_left : float)
                  (i : nat),
             (i < 100)%nat ->
             row_check head_left head_right
               (nth i (contour_z
                         (update_figure H W K head_left head_right
                            excavation_depth_right excavation_depth_left))
                    []) = true)
         head_right_slider_values)
       head_left_slider_values)
     width_slider_values.
Proof.
  split; [|exact binary64_head_rows].
  intros Y W head_left head_right HW.
  pose proof (hydraulic_head_left Y W head_left head_right) as E0.
  pose proof (hydraulic_head_right Y head_left head_right HW) as EW.
  split; intros Hh; split.
  - intros X X' _ HX _. now apply hydraulic_head_decreasing.
  - intros X H0 H1.
    pose proof (hydraulic_head_decreasing Y Y HW Hh H1).
    pose proof (hydraulic_head_decreasing Y Y HW Hh H0).
    split; lra.
  - intros X X' _ HX _. now apply hydraulic_head_increasing.
  - intros X H0 H1.
    pose proof (hydraulic_head_increasing Y Y HW Hh H1).
    pose proof (hydraulic_head_increasing Y Y HW Hh H0).
    split; lra.
Qed.

Lemma head_monotone_between_witness :
  0 < 20 /\ 5 <= 8 /\ 0 <= 4 /\ 4 <= 10 /\ 10 <= 20
  /\ hydraulic_head 10 0 20 8 5 <= hydraulic_head 4 0 20 8 5
  /\ 5 <= hydraulic_head 10 0 20 8 5
  /\ hydraulic_head 10 0 20 8 5 <= 8.
Proof.
  assert (P0 : 0 < 20) by reflexivity.
  assert (P1 : 5 <= 8) by (unfold Qle; cbn; lia).
  assert (P2 : 0 <= 4) by (unfold Qle; cbn; lia).
  assert (P3 : 4 <= 10) by (unfold Qle; cbn; lia).
  assert (P4 : 10 <= 20) by (unfold Qle; cbn; lia).
  assert (P5 : 0 <= 10) by (unfold Qle; cbn; lia).
  destruct (proj1 head_monotone_between 0 20 8 5 P0) as [D _].
  destruct (D P1) as [Mono Bound].
  exact (conj P0 (conj P1 (conj P2 (conj P3 (conj P4
           (conj (Mono 4 10 P2 P3 P4) (Bound 10 P5 P4))))))).
Defined.

End HeadClaims.

(** C3. Two calls that agree on [W], [head_left] and [head_right] compute
    one and the same head field, however they differ in [K] and in the two
    excavation depths (and even in [H]: the y samples are never read); and
    within a call the head at a grid point does not depend on its row, that
    is on its y coordinate. This holds at every instance of the numbers. *)
Theorem head_field_noninterference {A : Type} {py : PyNum A}
    (W head_left head_right : A)
    (H K excavation_depth_right excavation_depth_left : A)
    (H' K' excavation_depth_right' excavation_depth_left' : A) :
  let z := contour_z (update_figure H W K head_left head_right
                        excavation_depth_right excavation_depth_left) in
  let z' := contour_z (update_figure H' W K' head_left head_right
                         excavation_depth_right' excavation_depth_left') in
  z = z'
  /\ (forall i i' j, i < 100 -> i' < 100 -> j < 100 ->
        entry z i j = entry z i' j)
  /\ (forall X Y Y', hydraulic_head X Y W head_left head_right
                     = hydraulic_head X Y' W head_left head_right).
Proof.
  cbv zeta. split; [|split].
  - rewrite !update_figure_contour_z.
    rewrite (map_ext _ (fun _ => map (fun xj => hydraulic_head xj (of_Z 0) W head_left head_right) (linspace (of_Z 0) W 100)))
      by reflexivity.
    rewrite (map_ext (fun yi => map (fun xj => hydraulic_head xj yi W head_left head_right) _)
                     (fun _ => map (fun xj => hydraulic_head xj (of_Z 0) W head_left head_right) (linspace (of_Z 0) W 100)))
      by reflexivity.
    now rewrite !map_const, !length_linspace.
  - intros i i' j Hi Hi' Hj. rewrite !contour_z_entry by assumption.
    apply hydraulic_head_Y.
  - intros X Y Y'. apply hydraulic_head_Y.
Qed.

(** ** The shapes of the figure (claims C5, C6, C8 and C10) *)

Section ShapeClaims.
Local Open Scope Q_scope.

(** C5, as stated, fails: with [H = 5] and an excavation depth of [10] on the
    right the box runs from [y0 = 5] to [y1 = -5]; it is not inverted. *)
Lemma excavation_deeper_than_H_not_inverted :
  let fig := update_figure 5 20 (1 # 100000) 8 5 10 0 in
  5 < 10
  /\ exists right,
       excavation_right fig = Some right
       /\ Shape.y0 right == 5
       /\ Shape.y1 right == -5
       /\ ~ Shape.y0 right < Shape.y1 right.
Proof.
  cbv zeta. split; [reflexivity|].
  unfold excavation_right. rewrite update_figure_rectangles.
  eexists. split; [reflexivity|]. cbn [Shape.y0 Shape.y1]. exact_arith.
  split; [reflexivity|]. split; [reflexivity|].
  intros Hlt. revert Hlt. unfold Qlt. cbn. lia.
Qed.

Lemma binary64_overdeep_check :
  forallb (fun H : float =>
    forallb (fun excavation_depth_right : float =>
      overdeep_check H excavation_depth_right)
    excavation_depth_right_slider_values)
  depth_slider_values = true.
Proof. vm_compute. reflexivity. Qed.

(** C5, amended. For every input the two excavation boxes are emitted as
    they come, with [y0 = H] and [y1 = H - depth] as the program computes
    it: the callback returns a figure for any values and clamps nothing.
    Where the depth exceeds [H] the box is not inverted: in exact arithmetic
    [y1 < 0], so [y1 < y0] when [H >= 0] and the box runs below the axis
    range; in binary64 the same holds for every value of the depth and
    right excavation sliders with the depth above [H]. *)
Theorem excavation_boxes_unclamped :
  (forall (A : Type) (py : PyNum A)
          (H W K head_left head_right
           excavation_depth_right excavation_depth_left : A),
     let fig := update_figure H W K head_left head_right
                  excavation_depth_right excavation_depth_left in
     exists right left,
       excavation_right fig = Some right
       /\ excavation_left fig = Some left
       /\ Shape.y0 right = H
       /\ Shape.y1 right = (H - excavation_depth_right)%py
       /\ Shape.y0 left = H
       /\ Shape.y1 left = (H - excavation_depth_left)%py)
  /\ (forall H W K head_left head_right
             excavation_depth_right excavation_depth_left : Q,
       let fig := update_figure H W K head_left head_right
                    excavation_depth_right excavation_depth_left in
       exists right left,
         excavation_right fig = Some right
         /\ excavation_left fig = Some left
         /\ (H < excavation_depth_right ->
             Shape.y1 right < 0
             /\ (0 <= H -> Shape.y1 right < Shape.y0 right))
         /\ (H < excavation_depth_left ->
             Shape.y1 left < 0
             /\ (0 <= H -> Shape.y1 left < Shape.y0 left)))
  /\ Forall (fun H : float =>
       Forall (fun excavation_depth_right : float =>
         forall W K head_left head_right excavation_depth_left : float,
         exists right,
           excavation_right (update_figure H W K head_left head_right
                               excavation_depth_right excavation_depth_left)
           = Some right
           /\ (ltb H excavation_depth_right = true ->
               ltb (Shape.y1 right) (of_Z 0) = true
               /\ ltb (Shape.y1 right) (Shape.y0 right) = true))
         excavation_depth_right_slider_values)
       depth_slider_values.
Proof.
  split; [|split].
  - intros A py H W K hl hr edr edl. cbv zeta.
    unfold excavation_right, excavation_left.
    rewrite update_figure_rectangles. cbn [nth_error].
    do 2 eexists. repeat split.
  - intros H W K hl hr edr edl. cbv zeta.
    unfold excavation_right, excavation_left.
    rewrite update_figure_rectangles. cbn [nth_error].
    do 2 eexists. do 2 (split; [reflexivity|]).
    cbn [Shape.y0 Shape.y1]. exact_arith.
    split; intros Hd; (split; [lra | intros H0; lra]).
  - pose proof binary64_overdeep_check as C.
    apply Forall_forall. intros H HH. apply Forall_forall. intros d Hd.
    intros W K hl hr edl. unfold excavation_right.
    rewrite update_figure_rectangles. cbn [nth_error].
    eexists. split; [reflexivity|]. cbn [Shape.y0 Shape.y1]. intros E.
    rewrite forallb_forall in C. specialize (C H HH).
    rewrite forallb_forall in C. specialize (C d Hd).
    unfold overdeep_check in C. rewrite E in C.
    apply andb_prop in C. exact C.
Qed.

(** C10, as stated, fails for the numbers the program computes with. In
    binary64, with [H = 10] and an excavation depth on the right of
    9.999999999999998, the double just below 10: [H - d] is 2^-49, a tenth
    of it is absorbed when added to [d], and the bottom of the sheet pile is
    [H - d] again, the floor of the right excavation and not below it. *)
Lemma binary64_sheetpile_meets_floor :
  let H : float := of_Z 10 in
  let d : float := 0x1.3ffffffffffffp+3%float in
  let fig := update_figure H (of_Z 20) (lit 1 5) (of_Z 8) (of_Z 5) d (of_Z 0) in
  ltb d H = true
  /\ (d + lit 1 1 * (H - d))%py = d
  /\ exists pile right,
       sheetpile fig = Some pile
       /\ excavation_right fig = Some right
       /\ Shape.y1 right = 0x1p-49%float
       /\ Shape.y1 pile = 0x1p-49%float
       /\ ltb (Shape.y1 pile) (Shape.y1 right) = false.
Proof.
  cbv zeta. split; [vm_compute; reflexivity|].
  split; [vm_compute; reflexivity|].
  unfold sheetpile, excavation_right. rewrite update_figure_rectangles.
  cbn [nth_error]. do 2 eexists. do 2 (split; [reflexivity|]).
  cbn [Shape.y1]. repeat split; vm_compute; reflexivity.
Qed.

(** C10, amended. For every input the sheet pile spans x from
    [W/2 - 0.5] to [W/2] and y from [H] down to [H - (d + 0.1*(H - d))], for
    [d] the excavation depth on the right, as the program computes these
    expressions; its y extent is the same whatever the other five parameters
    are, the excavation depth on the left among them. In exact arithmetic,
    whenever [d < H] its bottom lies strictly below the floor of the right
    excavation; in binary64 that holds for every value of the depth and
    right excavation sliders, and for other numbers the two can meet. *)
Theorem sheetpile_extent :
  (forall (A : Type) (py : PyNum A)
          (H W K head_left head_right
           excavation_depth_right excavation_depth_left : A),
     let fig := update_figure H W K head_left head_right
                  excavation_depth_right excavation_depth_left in
     exists pile,
       sheetpile fig = Some pile
       /\ Shape.type pile = "rect"%string
       /\ Shape.x0 pile = (W / of_Z 2 - lit 5 1)%py
       /\ Shape.x1 pile = (W / of_Z 2)%py
       /\ Shape.y0 pile = H
       /\ Shape.y1 pile
          = (H - (excavation_depth_right
                  + lit 1 1 * (H - excavation_depth_right)))%py
       /\ (forall W' K' head_left' head_right' excavation_depth_left',
             exists pile',
               sheetpile (update_figure H W' K' head_left' head_right'
                            excavation_depth_right excavation_depth_left')
               = Some pile'
               /\ Shape.y0 pile' = Shape.y0 pile
               /\ Shape.y1 pile' = Shape.y1 pile))
  /\ (forall H W K head_left head_right
             excavation_depth_right excavation_depth_left : Q,
       let fig := update_figure H W K head_left head_right
                    excavation_depth_right excavation_depth_left in
       exists pile right,
         sheetpile fig = Some pile
         /\ excavation_right fig = Some right
         /\ Shape.x0 pile == W / 2 - 5 / 10
         /\ Shape.x1 pile == W / 2
         /\ Shape.y0 pile == H
         /\ Shape.y1 pile
            == H - (excavation_depth_right
                    + 1 / 10 * (H - excavation_depth_right))
         /\ (excavation_depth_right < H -> Shape.y1 pile < Shape.y1 right))
  /\ Forall (fun H : float =>
       Forall (fun excavation_depth_right : float =>
         forall W K head_left head_right excavation_depth_left : float,
         exists pile right,
           let fig := update_figure H W K head_left head_right
                        excavation_depth_right excavation_depth_left in
           sheetpile fig = Some pile
           /\ excavation_right fig = Some right
           /\ (ltb excavation_depth_right H = true ->
               ltb (Shape.y1 pile) (Shape.y1 right) = true))
         excavation_depth_right_slider_values)
       depth_slider_values.
Proof.
  split; [|split].
  - intros A py H W K hl hr edr edl. cbv zeta. unfold sheetpile.
    rewrite update_figure_rectangles. cbn [nth_error].
    eexists. do 6 (split; [reflexivity|]).
    intros W' K' hl' hr' edl'. rewrite update_figure_rectangles.
    eexists. split; [reflexivity|]. split; reflexivity.
  - intros H W K hl hr edr edl. cbv zeta. unfold sheetpile, excavation_right.
    rewrite update_figure_rectangles. cbn [nth_error].
    do 2 eexists. do 2 (split; [reflexivity|]).
    cbn [Shape.x0 Shape.x1 Shape.y0 Shape.y1].
    assert (E5 : lit (A := Q) 5 1 == 5 / 10) by reflexivity.
    assert (E1 : lit (A := Q) 1 1 == 1 / 10) by reflexivity.
    cbn [of_Z add sub mul div eqb PyNum_Q].
    split; [now rewrite E5|]. split; [reflexivity|]. split; [reflexivity|].
    split; [now rewrite E1|].
    intros Hd. assert (E : lit (A := Q) 1 1 == 1 # 10) by reflexivity.
    rewrite E. clear E5 E1 E. lra.
  - pose proof binary64_depths_check as C.
    apply Forall_forall. intros H HH. apply Forall_forall. intros d Hd.
    intros W K hl hr edl. cbv zeta. unfold sheetpile, excavation_right.
    rewrite update_figure_rectangles. cbn [nth_error].
    do 2 eexists. do 2 (split; [reflexivity|]). cbn [Shape.y1]. intros E.
    rewrite forallb_forall in C. specialize (C H HH).
    rewrite forallb_forall in C. specialize (C d Hd).
    unfold depth_check in C. cbv zeta in C.
    apply andb_prop in C. destruct C as [C1 _]. now rewrite E in C1.
Qed.

Lemma sheetpile_extent_witness :
  let fig := update_figure 10 20 (1 # 100000) 8 5 5 0 in
  5 < 10
  /\ exists pile right,
       sheetpile fig = Some pile /\ excavation_right fig = Some right
       /\ Shape.y1 pile == 9 / 2 /\ Shape.y1 right == 5
       /\ Shape.y1 pile < Shape.y1 right.
Proof.
  cbv zeta. split; [reflexivity|].
  destruct (proj1 (proj2 sheetpile_extent) 10 20 (1 # 100000) 8 5 5 0)
    as (pile & right & Hp & Hr & _ & _ & _ & Hy & Hbelow).
  exists pile, right. split; [exact Hp|]. split; [exact Hr|].
  split; [rewrite Hy; reflexivity|]. split.
  - unfold excavation_right in Hr. rewrite update_figure_rectangles in Hr.
    injection Hr as <-. reflexivity.
  - apply Hbelow. reflexivity.
Defined.

End ShapeClaims.

Section CountClaims.
Local Open Scope Q_scope.

Lemma forallb_map_always {A B : Type} (p : B -> bool) (f : A -> B) (l : list A) :
  (forall x, p (f x) = true) -> forallb p (map f l) = true.
Proof.
  intros Hp. induction l as [|x l IH]; cbn; [reflexivity|].
  now rewrite Hp, IH.
Qed.

(** The five samples of [linspace(0, W, 5)] are the quarter points of
    [0, W]. *)
Lemma quarter_points (W : Q) :
  Forall2 Qeq (linspace 0 W 5) [0; W / 4; W / 2; 3 * W / 4; W].
Proof.
  unfold linspace. cbv zeta. exact_arith. unfold arange. cbn [seq map Z.of_nat].
  assert (N4 : ~ inject_Z (Z.of_nat (5 - 1)) == 0) by (unfold Qeq; cbn; lia).
  destruct (Qeq_bool _ _); cbn [map set_last removelast app];
    repeat constructor; cbn; field.
Qed.

(** C6. For every combination of the seven parameters the figure holds
    exactly three rectangles (the two excavation boxes and the sheet pile)
    and seven segments: five flow lines, each vertical, and two water-level
    lines, each horizontal and each with a text annotation at its level;
    and exactly one trace, a contour. *)
Theorem figure_inventory
    (H W K head_left head_right
     excavation_depth_right excavation_depth_left : Q) :
  let fig := update_figure H W K head_left head_right
               excavation_depth_right excavation_depth_left in
  length (shapes fig) = 10%nat
  /\ length (rectangles fig) = 3%nat
  /\ length (line_shapes fig) = 7%nat
  /\ length (flow_lines fig) = 5%nat
  /\ forallb vertical (flow_lines fig) = true
  /\ length (water_lines fig) = 2%nat
  /\ forallb horizontal (water_lines fig) = true
  /\ length (annotations fig) = 2%nat
  /\ forallb labelled (annotations fig) = true
  /\ map (@Annotation.y Q) (annotations fig)
     = map (@Shape.y0 Q) (water_lines fig)
  /\ length (Figure.data fig) = 1%nat
  /\ length (contours fig) = 1%nat.
Proof.
  cbv zeta.
  rewrite update_figure_shapes, update_figure_rectangles,
    update_figure_line_shapes, update_figure_flow_lines,
    update_figure_water_lines, update_figure_annotations.
  rewrite !length_app, !length_map, !length_linspace.
  do 4 (split; [reflexivity|]).
  split.
  { apply forallb_map_always. intros x. unfold vertical. cbn [Shape.x0 Shape.x1].
    exact_arith. apply Qeq_eq_bool. reflexivity. }
  split; [reflexivity|].
  split.
  { unfold horizontal. cbn [forallb Shape.y0 Shape.y1]. exact_arith.
    now rewrite !(Qeq_eq_bool _ _ (Qeq_refl _)). }
  do 3 (split; [reflexivity|]).
  destruct (update_figure_data H W K head_left head_right
              excavation_depth_right excavation_depth_left)
    as (t & Hd & Ht & _).
  unfold contours. rewrite Hd. cbn [filter]. rewrite Ht. split; reflexivity.
Qed.

(** With a width and a depth other than zero, vertical and horizontal
    segments are exactly the flow lines and the water-level lines. *)
Lemma segments_by_direction
    (H W K head_left head_right
     excavation_depth_right excavation_depth_left : Q) :
  ~ W == 0 -> ~ H == 0 ->
  let fig := update_figure H W K head_left head_right
               excavation_depth_right excavation_depth_left in
  filter vertical (line_shapes fig) = flow_lines fig
  /\ filter horizontal (line_shapes fig) = water_lines fig.
Proof.
  intros HW HH. cbv zeta.
  rewrite update_figure_line_shapes, update_figure_flow_lines,
    update_figure_water_lines, !filter_app.
  assert (V1 : Qeq_bool 0 (W / 2) = false).
  { destruct (Qeq_bool 0 (W / 2)) eqn:E; [|reflexivity].
    apply Qeq_bool_eq in E. exfalso. apply HW.
    setoid_replace W with (2 * (W / 2)) by field. rewrite <- E. ring. }
  assert (V2 : Qeq_bool (W / 2) W = false).
  { destruct (Qeq_bool (W / 2) W) eqn:E; [|reflexivity].
    apply Qeq_bool_eq in E. exfalso. apply HW.
    setoid_replace W with (2 * (W - W / 2)) by field. rewrite E. ring. }
  assert (V3 : Qeq_bool 0 H = false).
  { destruct (Qeq_bool 0 H) eqn:E; [|reflexivity].
    apply Qeq_bool_eq in E. exfalso. apply HH. now symmetry. }
  split.
  - rewrite filter_map_always.
    + unfold vertical. cbn [filter Shape.x0 Shape.x1]. exact_arith.
      change (inject_Z 0) with 0. change (inject_Z 2) with 2.
      rewrite V1, V2. apply app_nil_r.
    + intros x. unfold vertical. cbn [Shape.x0 Shape.x1]. exact_arith.
      apply Qeq_eq_bool. reflexivity.
  - rewrite filter_map_never.
    + unfold horizontal. cbn [filter Shape.y0 Shape.y1]. exact_arith.
      now rewrite !(Qeq_eq_bool _ _ (Qeq_refl _)).
    + intros x. unfold horizontal. cbn [Shape.y0 Shape.y1]. exact_arith.
      exact V3.
Qed.

(** C8. The five flow lines are vertical segments at [x = 0], [W/4], [W/2],
    [3W/4] and [W], each from [y = 0] to [y = H]; they are the same for all
    values of the other parameters, [K] and the two heads among them. *)
Theorem flow_lines_fixed
    (H W K head_left head_right
     excavation_depth_right excavation_depth_left : Q) :
  let fl := flow_lines (update_figure H W K head_left head_right
                          excavation_depth_right excavation_depth_left) in
  Forall2 Qeq (map (@Shape.x0 Q) fl) [0; W / 4; W / 2; 3 * W / 4; W]
  /\ Forall (fun s => Shape.type s = "line"%string
                      /\ Shape.x1 s = Shape.x0 s
                      /\ Shape.y0 s = 0 /\ Shape.y1 s = H) fl
  /\ (forall K' head_left' head_right'
             excavation_depth_right' excavation_depth_left',
        flow_lines (update_figure H W K' head_left' head_right'
                      excavation_depth_right' excavation_depth_left') = fl).
Proof.
  cbv zeta. rewrite update_figure_flow_lines. split; [|split].
  - rewrite map_map. cbn [Shape.x0]. rewrite map_id. apply quarter_points.
  - apply Forall_map, Forall_forall. intros x _. cbn. repeat split.
  - intros. now rewrite update_figure_flow_lines.
Qed.

End CountClaims.

(** ** The layout and the callback as a whole (claims C7 and C9) *)

(** C7. For every input the figure is titled "Seepage Flow Around a Deep
    Excavation with Flow Net"; its x axis is titled "Width (m)" and ranges
    over [0, W], its y axis is titled "Depth (m)" and ranges over [0, H];
    the canvas is 900 wide and 600 high. *)
Theorem figure_layout {A : Type} {py : PyNum A}
    (H W K head_left head_right
     excavation_depth_right excavation_depth_left : A) :
  let l := Figure.layout (update_figure H W K head_left head_right
                            excavation_depth_right excavation_depth_left) in
  Layout.title l = Some "Seepage Flow Around a Deep Excavation with Flow Net"
  /\ Axis.title (Layout.xaxis l) = Some "Width (m)"
  /\ Axis.range (Layout.xaxis l) = Some (of_Z 0, W)
  /\ Axis.title (Layout.yaxis l) = Some "Depth (m)"
  /\ Axis.range (Layout.yaxis l) = Some (of_Z 0, H)
  /\ Layout.width l = Some 900%Z
  /\ Layout.height l = Some 600%Z.
Proof.
  cbv zeta.
  pose proof (update_figure_frame H W K head_left head_right
                excavation_depth_right excavation_depth_left) as F.
  unfold frame in F. cbv zeta in F.
  pose proof (f_equal (fun p => fst (fst (fst (fst p)))) F) as Ht.
  pose proof (f_equal (fun p => snd (fst (fst (fst p)))) F) as Hx.
  pose proof (f_equal (fun p => snd (fst (fst p))) F) as Hy.
  pose proof (f_equal (fun p => snd (fst p)) F) as Hh.
  pose proof (f_equal snd F) as Hw.
  cbn [fst snd] in Ht, Hx, Hy, Hh, Hw.
  rewrite Ht, Hx, Hy, Hh, Hw. repeat split.
Qed.

Section NoHiddenState.
Context {A : Type} {py : PyNum A}.

Lemma store_fresh (f : Figure.t A -> Figure.t A) (h : heap) (o : Figure.t A) :
  store (length h) f (h ++ [o]) = h ++ [f o].
Proof.
  unfold store. rewrite nth_error_app2 by lia. rewrite Nat.sub_diag.
  cbn [nth_error]. rewrite firstn_app, Nat.sub_diag, firstn_all.
  cbn [firstn]. rewrite app_nil_r.
  rewrite skipn_all2 by (rewrite length_app; cbn; lia). reflexivity.
Qed.

(** A method called on the newest object changes that object alone. *)
Lemma run_mutate {T : Type} (f : Figure.t A -> Figure.t A) (k : unit -> M T)
    (h : heap) (o : Figure.t A) :
  bind (mutate (length h) f) k (h ++ [o]) = k tt (h ++ [f o]).
Proof. unfold bind, mutate. now rewrite store_fresh. Qed.

Lemma run_for_each {T U : Type} (g : U -> Shape.t A) (l : list U)
    (k : unit -> M T) (h : heap) (o : Figure.t A) :
  bind (for_each l (fun v => mutate (length h) (fun f => add_shape f (g v))))
       k (h ++ [o])
  = k tt (h ++ [fold_left (fun f v => add_shape f (g v)) l o]).
Proof.
  revert o. induction l as [|v l IH]; intros o; cbn [for_each fold_left].
  - reflexivity.
  - unfold bind at 1. unfold bind at 1. unfold mutate at 1.
    rewrite store_fresh. apply IH.
Qed.

(** Run on any heap, the callback leaves every object it finds as it is and
    adds one: the figure that [update_figure] describes. *)
Lemma update_figure_run_spec
    (H W K head_left head_right
     excavation_depth_right excavation_depth_left : A) (h : heap) :
  update_figure_run H W K head_left head_right
    excavation_depth_right excavation_depth_left h
  = (length h,
     h ++ [update_figure H W K head_left head_right
             excavation_depth_right excavation_depth_left]).
Proof.
  unfold update_figure_run, update_figure. cbn [meshgrid].
  unfold bind at 1. unfold go_Figure at 1.
  rewrite !run_mutate, run_for_each, !run_mutate. reflexivity.
Qed.

Lemma serve_spec (i : Inputs.t A) (h : heap) :
  serve i h = (callback i, h ++ [callback i]).
Proof.
  unfold serve, bind, read. rewrite update_figure_run_spec.
  rewrite app_nth2, Nat.sub_diag by lia. reflexivity.
Qed.

Lemma serve_all_spec (events : list (Inputs.t A)) (h : heap) :
  serve_all events h = (dispatch events, h ++ dispatch events).
Proof.
  revert h. induction events as [|i rest IH]; intros h; cbn [serve_all].
  - unfold ret. cbn. now rewrite app_nil_r.
  - unfold bind. rewrite serve_spec, IH. unfold ret, dispatch. cbn [map].
    now rewrite <- app_assoc.
Qed.

End NoHiddenState.

(** C9. The callback has no hidden state. Run statement by statement on
    the heap of figure objects, it creates its figure anew and changes no
    object it finds; so the figure it returns is the same whatever objects
    are alive and whatever events were served before, two calls with the
    same seven values return identical figure data (shapes, traces,
    annotations and layout), and each figure shown in a run of the
    application is a function of that event's values alone. *)
Theorem update_figure_no_hidden_state {A : Type} {py : PyNum A}
    (h h' : heap) (before before' : list (Inputs.t A)) (i : Inputs.t A) :
  fst (serve i h) = fst (serve i h')
  /\ fst (serve i h) = callback i
  /\ fst (serve i (snd (serve_all before h)))
     = fst (serve i (snd (serve_all before' h')))
  /\ fst (bind (serve i) (fun _ => serve i) h) = fst (serve i h)
  /\ firstn (length h) (snd (serve i h)) = h
  /\ length (snd (serve i h)) = S (length h)
  /\ fst (serve_all (before ++ [i]) h)
     = fst (serve_all before h) ++ [fst (serve i h')]
  /\ (let fig := fst (serve i h) in
      let fig' := fst (serve i h') in
      shapes fig = shapes fig' /\ Figure.data fig = Figure.data fig'
      /\ annotations fig = annotations fig'
      /\ Figure.layout fig = Figure.layout fig').
Proof.
  unfold bind. rewrite !serve_all_spec, !serve_spec. cbn [fst snd].
  rewrite ?serve_spec. cbn [fst snd].
  split; [reflexivity|]. split; [reflexivity|].
  split; [reflexivity|]. split; [reflexivity|].
  split; [now rewrite firstn_app, Nat.sub_diag, firstn_all, app_nil_r|].
  split; [rewrite length_app; cbn; lia|].
  split; [unfold dispatch; now rewrite map_app|].
  repeat split.
Qed.

(** * Further properties of the callback and the layout *)

(** ** The head as an interpolation *)

Section Interpolation.
Local Open Scope Q_scope.

Lemma Qnonzero_of_nat (n : nat) : (0 < n)%nat -> ~ inject_Z (Z.of_nat n) == 0.
Proof. intros Hn. unfold Qeq. cbn. lia. Qed.

(** X3. The head interpolates linearly between the two heads: at the
    fraction [t] of the width it is [(1 - t) * head_left + t * head_right].
    This needs [W <> 0] only; a negative width gives the same values. *)
Theorem hydraulic_head_interpolates (t Y W head_left head_right : Q) :
  ~ W == 0 ->
  hydraulic_head (t * W) Y W head_left head_right
  == (1 - t) * head_left + t * head_right.
Proof. intros HW. rewrite hydraulic_head_Q. now field. Qed.

Lemma hydraulic_head_interpolates_witness :
  ~ 20 == 0
  /\ hydraulic_head ((1 # 2) * 20) 0 20 8 5 == (1 - (1 # 2)) * 8 + (1 # 2) * 5
  /\ (1 - (1 # 2)) * 8 + (1 # 2) * 5 == 13 # 2.
Proof.
  assert (N : ~ 20 == 0) by (intros E; discriminate E).
  split; [exact N|]. split; [|reflexivity].
  exact (hydraulic_head_interpolates (1 # 2) 0 8 5 N).
Defined.

(** The sample [j] of the x axis, as a fraction of the width. *)
Lemma sample_fraction (W : Q) (j : nat) :
  (j < 100)%nat -> sample W 100 j == (inject_Z (Z.of_nat j) / 99) * W.
Proof.
  intros Hj. rewrite sample_Q by lia.
  change (inject_Z (Z.of_nat (100 - 1))) with 99. field.
Qed.

(** X4. For [W <> 0] the head field does not depend on the width: entry
    [i][j] is [head_left - (head_left - head_right) * j/99], so the head
    drops by the same amount, [(head_left - head_right)/99], from each column
    to the next, and two equal heads give a constant field. *)
Theorem contour_z_closed_form
    (H W K head_left head_right
     excavation_depth_right excavation_depth_left : Q) :
  ~ W == 0 ->
  let z := contour_z (update_figure H W K head_left head_right
                        excavation_depth_right excavation_depth_left) in
  (forall i j, (i < 100)%nat -> (j < 100)%nat ->
     entry z i j
     == head_left - (head_left - head_right) * (inject_Z (Z.of_nat j) / 99))
  /\ (forall i j, (i < 100)%nat -> (j < 99)%nat ->
        entry z i j - entry z i (S j) == (head_left - head_right) / 99)
  /\ (forall H' W' K' excavation_depth_right' excavation_depth_left' i j,
        ~ W' == 0 -> (i < 100)%nat -> (j < 100)%nat ->
        entry (contour_z (update_figure H' W' K' head_left head_right
                            excavation_depth_right' excavation_depth_left'))
              i j
        == entry z i j)
  /\ (head_left == head_right ->
      forall i j, (i < 100)%nat -> (j < 100)%nat -> entry z i j == head_left).
Proof.
  intros HW z. subst z.
  assert (F : forall H1 W1 K1 edr1 edl1 i j,
             ~ W1 == 0 -> (i < 100)%nat -> (j < 100)%nat ->
             entry (contour_z (update_figure H1 W1 K1 head_left head_right
                                 edr1 edl1)) i j
             == head_left
                - (head_left - head_right) * (inject_Z (Z.of_nat j) / 99)).
  { intros H1 W1 K1 edr1 edl1 i j HW1 Hi Hj.
    rewrite contour_z_entry by assumption.
    rewrite hydraulic_head_Q, (sample_fraction W1 Hj). now field. }
  split; [|split; [|split]].
  - intros i j Hi Hj. now apply F.
  - intros i j Hi Hj. rewrite !F by (assumption || lia).
    rewrite Nat2Z.inj_succ. unfold Z.succ. rewrite inject_Z_plus.
    change (inject_Z 1) with 1. field.
  - intros H' W' K' edr' edl' i j HW' Hi Hj. now rewrite !F by assumption.
  - intros E i j Hi Hj. rewrite F by assumption. rewrite E. ring.
Qed.

Lemma contour_z_closed_form_witness :
  ~ 20 == 0
  /\ entry (contour_z (update_figure 10 20 (1 # 100000) 8 5 5 0)) 3 33
     == 8 - (8 - 5) * (33 / 99)
  /\ entry (contour_z (update_figure 10 20 (1 # 100000) 8 5 5 0)) 3 33
     - entry (contour_z (update_figure 10 20 (1 # 100000) 8 5 5 0)) 3 34
     == (8 - 5) / 99.
Proof.
  assert (N : ~ 20 == 0) by (intros E; discriminate E).
  split; [exact N|].
  destruct (contour_z_closed_form 10 (1 # 100000) 8 5 5 0 N) as (E & D & _).
  split.
  - exact (E 3%nat 33%nat ltac:(lia) ltac:(lia)).
  - exact (D 3%nat 33%nat ltac:(lia) ltac:(lia)).
Defined.

(** X5. Swapping the two heads mirrors the head about the middle of the
    width; in the figure, column [j] of the field with the heads swapped is
    column [99 - j] of the field. *)
Theorem head_field_mirror
    (H W K head_left head_right
     excavation_depth_right excavation_depth_left : Q) :
  ~ W == 0 ->
  (forall X Y,
     hydraulic_head X Y W head_left head_right
     == hydraulic_head (W - X) Y W head_right head_left)
  /\ (forall i j, (i < 100)%nat -> (j < 100)%nat ->
        entry (contour_z (update_figure H W K head_right head_left
                            excavation_depth_right excavation_depth_left))
              i j
        == entry (contour_z (update_figure H W K head_left head_right
                               excavation_depth_right excavation_depth_left))
                 i (99 - j)).
Proof.
  intros HW. split.
  - intros X Y. rewrite !hydraulic_head_Q. now field.
  - intros i j Hi Hj.
    destruct (contour_z_closed_form H K head_right head_left
                excavation_depth_right excavation_depth_left HW) as (E & _).
    destruct (contour_z_closed_form H K head_left head_right
                excavation_depth_right excavation_depth_left HW) as (E' & _).
    rewrite E, E' by (assumption || lia).
    rewrite Nat2Z.inj_sub by lia. unfold Z.sub. rewrite inject_Z_plus, inject_Z_opp.
    change (inject_Z (Z.of_nat 99)) with 99. field.
Qed.

Lemma head_field_mirror_witness :
  ~ 20 == 0
  /\ hydraulic_head 4 0 20 8 5 == hydraulic_head (20 - 4) 0 20 5 8
  /\ entry (contour_z (update_figure 10 20 (1 # 100000) 5 8 5 0)) 0 10
     == entry (contour_z (update_figure 10 20 (1 # 100000) 8 5 5 0)) 0 89.
Proof.
  assert (N : ~ 20 == 0) by (intros E; discriminate E).
  split; [exact N|].
  destruct (head_field_mirror 10 (1 # 100000) 8 5 5 0 N) as (F & M).
  split; [exact (F 4 0)|].
  exact (M 0%nat 10%nat ltac:(lia) ltac:(lia)).
Defined.

End Interpolation.

(** ** The axes of the contour *)

Section ContourAxes.
Context {A : Type} {py : PyNum A}.

Lemma last_set_last (stop d : A) (y : list A) :
  y <> [] -> last (set_last stop y) d = stop.
Proof.
  intros Hy. destruct y as [|a y]; [congruence|].
  unfold set_last. apply last_last.
Qed.

Lemma last_linspace (start stop d : A) (num : nat) :
  0 < num -> last (linspace start stop num) d = stop.
Proof.
  intros Hn. unfold linspace. apply last_set_last.
  intros E. apply (f_equal (@length A)) in E. rewrite length_map in E.
  destruct (eqb _ _); rewrite length_map, length_arange in E; cbn in E; lia.
Qed.

(** X6. The contour trace is well formed at every instance of the numbers:
    it is the only trace, its x and y arrays have 100 entries each and end
    at [W] and [H] themselves, and its z-data has one row per entry of y and
    one column per entry of x. *)
Theorem contour_trace_shape
    (H W K head_left head_right
     excavation_depth_right excavation_depth_left : A) :
  let fig := update_figure H W K head_left head_right
               excavation_depth_right excavation_depth_left in
  exists t,
    Figure.data fig = [t]
    /\ contours fig = [t]
    /\ length (Trace.x t) = 100
    /\ length (Trace.y t) = 100
    /\ length (Trace.z t) = length (Trace.y t)
    /\ Forall (fun row => length row = length (Trace.x t)) (Trace.z t)
    /\ last (Trace.x t) (of_Z 0) = W
    /\ last (Trace.y t) (of_Z 0) = H.
Proof.
  cbv zeta.
  destruct (update_figure_data H W K head_left head_right
              excavation_depth_right excavation_depth_left)
    as (t & Hd & Ht & Hx & Hy & Hz).
  pose proof (update_figure_contour_z H W K head_left head_right
                excavation_depth_right excavation_depth_left) as Zf.
  assert (Hc : contours (update_figure H W K head_left head_right
                           excavation_depth_right excavation_depth_left)
               = [t]).
  { unfold contours. rewrite Hd. cbn [filter]. now rewrite Ht. }
  unfold contour_z in Zf. rewrite Hc in Zf.
  exists t. split; [exact Hd|]. split; [exact Hc|].
  rewrite Zf, Hx, Hy, !length_linspace, length_map, length_linspace.
  do 3 (split; [reflexivity|]). split; [|split].
  - apply Forall_map, Forall_forall. intros yi _.
    now rewrite length_map, length_linspace.
  - apply last_linspace. lia.
  - apply last_linspace. lia.
Qed.

End ContourAxes.

Section ContourAxesExact.
Local Open Scope Q_scope.

Lemma sample_step (stop : Q) (j : nat) :
  (j < 99)%nat -> sample stop 100 (S j) - sample stop 100 j == stop / 99.
Proof.
  intros Hj. rewrite !sample_fraction by lia.
  rewrite Nat2Z.inj_succ. unfold Z.succ. rewrite inject_Z_plus.
  change (inject_Z 1) with 1. field.
Qed.

(** X7. In exact arithmetic, for [W > 0] and [H > 0], the x samples of the
    contour run from [0] to [W] in 99 equal steps of [W/99], the y samples
    from [0] to [H] in steps of [H/99]; both arrays are strictly
    increasing. *)
Theorem contour_axes_evenly_spaced
    (H W K head_left head_right
     excavation_depth_right excavation_depth_left : Q) :
  0 < W -> 0 < H ->
  let fig := update_figure H W K head_left head_right
               excavation_depth_right excavation_depth_left in
  exists t,
    contours fig = [t]
    /\ nth 0 (Trace.x t) 0 == 0 /\ nth 99 (Trace.x t) 0 == W
    /\ nth 0 (Trace.y t) 0 == 0 /\ nth 99 (Trace.y t) 0 == H
    /\ (forall j, (j < 99)%nat ->
          nth (S j) (Trace.x t) 0 - nth j (Trace.x t) 0 == W / 99
          /\ nth j (Trace.x t) 0 < nth (S j) (Trace.x t) 0)
    /\ (forall j, (j < 99)%nat ->
          nth (S j) (Trace.y t) 0 - nth j (Trace.y t) 0 == H / 99
          /\ nth j (Trace.y t) 0 < nth (S j) (Trace.y t) 0).
Proof.
  intros HW HH. cbv zeta.
  destruct (contour_trace_shape H W K head_left head_right
              excavation_depth_right excavation_depth_left)
    as (t & Hd & Hc & _).
  destruct (update_figure_data H W K head_left head_right
              excavation_depth_right excavation_depth_left)
    as (t' & Hd' & _ & Hx & Hy & _).
  rewrite Hd in Hd'. injection Hd' as <-.
  exists t. split; [exact Hc|]. rewrite Hx, Hy.
  change (nth ?j (linspace (of_Z 0) ?s 100) 0) with (sample s 100 j).
  assert (S0 : forall s, sample s 100 0 == 0).
  { intros s. rewrite sample_fraction by lia. cbn [Z.of_nat]. field. }
  assert (S99 : forall s, sample s 100 99 == s).
  { intros s. rewrite sample_fraction by lia. cbn. field. }
  assert (St : forall s j, 0 < s -> (j < 99)%nat ->
                 sample s 100 (S j) - sample s 100 j == s / 99
                 /\ sample s 100 j < sample s 100 (S j)).
  { intros s j Hs Hj. pose proof (sample_step s Hj) as D. split; [exact D|].
    assert (0 < s / 99) by (apply Qlt_shift_div_l; [reflexivity | lra]).
    lra. }
  split; [apply S0|]. split; [apply S99|].
  split; [apply S0|]. split; [apply S99|].
  split; intros j Hj; now apply St.
Qed.

Lemma contour_axes_evenly_spaced_witness :
  0 < 20 /\ 0 < 10
  /\ exists t,
       contours (update_figure 10 20 (1 # 100000) 8 5 5 0) = [t]
       /\ nth 50 (Trace.x t) 0 - nth 49 (Trace.x t) 0 == 20 / 99
       /\ nth 50 (Trace.y t) 0 - nth 49 (Trace.y t) 0 == 10 / 99.
Proof.
  split; [reflexivity|]. split; [reflexivity|].
  destruct (contour_axes_evenly_spaced (H := 10) (W := 20) (1 # 100000) 8 5 5 0
              eq_refl eq_refl)
    as (t & Hc & _ & _ & _ & _ & X & Y).
  exists t. split; [exact Hc|]. split.
  - exact (proj1 (X 49%nat ltac:(lia))).
  - exact (proj1 (Y 49%nat ltac:(lia))).
Defined.

End ContourAxesExact.

(** ** How the shapes fit together *)

Section ShapeLayout.
Context {A : Type} {py : PyNum A}.

(** X8. At every instance of the numbers: the two excavation boxes split
    the width at [W/2], the left one from [0] and the right one up to [W];
    the right face of the sheet pile stands on that line; the three
    rectangles start at the top, [y0 = H]; and each water-level line spans
    the width of the box on its side. *)
Theorem boxes_and_water_lines_align
    (H W K head_left head_right
     excavation_depth_right excavation_depth_left : A) :
  let fig := update_figure H W K head_left head_right
               excavation_depth_right excavation_depth_left in
  exists right left pile water_left water_right,
    rectangles fig = [right; left; pile]
    /\ water_lines fig = [water_left; water_right]
    /\ Shape.x0 left = of_Z 0
    /\ Shape.x1 left = Shape.x0 right
    /\ Shape.x1 right = W
    /\ Shape.x1 pile = Shape.x0 right
    /\ Shape.y0 left = H /\ Shape.y0 right = H /\ Shape.y0 pile = H
    /\ Shape.x0 water_left = Shape.x0 left
    /\ Shape.x1 water_left = Shape.x1 left
    /\ Shape.x0 water_right = Shape.x0 right
    /\ Shape.x1 water_right = Shape.x1 right.
Proof.
  cbv zeta. rewrite update_figure_rectangles, update_figure_water_lines.
  do 5 eexists. split; [reflexivity|]. split; [reflexivity|].
  cbn [Shape.x0 Shape.x1 Shape.y0]. repeat split.
Qed.

(** X9. The shapes are added in drawing order: the three rectangles, then
    the flow lines, then the water-level lines. The excavation boxes are
    white and drawn below the traces, the water-level lines above them; the
    sheet pile and the flow lines set no layer. *)
Theorem shapes_in_drawing_order
    (H W K head_left head_right
     excavation_depth_right excavation_depth_left : A) :
  let fig := update_figure H W K head_left head_right
               excavation_depth_right excavation_depth_left in
  shapes fig = rectangles fig ++ flow_lines fig ++ water_lines fig
  /\ map (fun s => (Shape.fillcolor s, Shape.layer s)) (rectangles fig)
     = [(Some "white", Some "below"); (Some "white", Some "below");
        (Some "gray", None)]
  /\ Forall (fun s => Shape.fillcolor s = None /\ Shape.layer s = None)
            (flow_lines fig)
  /\ Forall (fun s => Shape.fillcolor s = None /\ Shape.layer s = Some "above")
            (water_lines fig).
Proof.
  cbv zeta.
  rewrite update_figure_shapes, update_figure_rectangles,
    update_figure_flow_lines, update_figure_water_lines.
  split; [reflexivity|]. split; [reflexivity|]. split.
  - apply Forall_map, Forall_forall. intros x _. now split.
  - repeat constructor.
Qed.

(** X10. The conductivity [K] has no effect on the figure, and each
    excavation depth moves the bottom of its own rectangles only: the depth
    on the left changes nothing but [y1] of the left box, the depth on the
    right nothing but [y1] of the right box and of the sheet pile. Traces,
    annotations, title, axes and all other shapes stay the same. *)
Theorem excavation_depths_frame
    (H W K head_left head_right
     excavation_depth_right excavation_depth_left : A)
    (K' excavation_depth_right' excavation_depth_left' : A) :
  let fig := update_figure H W K head_left head_right
               excavation_depth_right excavation_depth_left in
  let fig' := update_figure H W K' head_left head_right
                excavation_depth_right' excavation_depth_left' in
  update_figure H W K' head_left head_right
    excavation_depth_right excavation_depth_left = fig
  /\ Figure.data fig' = Figure.data fig
  /\ annotations fig' = annotations fig
  /\ frame fig' = frame fig
  /\ skipn 3 (shapes fig') = skipn 3 (shapes fig)
  /\ map (fun s => (Shape.type s, Shape.x0 s, Shape.x1 s, Shape.y0 s,
                    Shape.line s, Shape.fillcolor s, Shape.layer s))
         (shapes fig')
     = map (fun s => (Shape.type s, Shape.x0 s, Shape.x1 s, Shape.y0 s,
                      Shape.line s, Shape.fillcolor s, Shape.layer s))
           (shapes fig)
  /\ (excavation_depth_right' = excavation_depth_right ->
      forall i, i <> 1 -> nth_error (shapes fig') i = nth_error (shapes fig) i)
  /\ (excavation_depth_left' = excavation_depth_left ->
      forall i, i <> 0 -> i <> 2 ->
                nth_error (shapes fig') i = nth_error (shapes fig) i).
Proof.
  cbv zeta. split; [reflexivity|].
  split.
  { unfold update_figure. cbn [meshgrid]. autorewrite with figure.
    reflexivity. }
  split; [now rewrite !update_figure_annotations|].
  split; [now rewrite !update_figure_frame|].
  rewrite !update_figure_shapes.
  split; [reflexivity|]. split.
  { cbn [app map]. rewrite !map_app, !map_map. reflexivity. }
  split.
  - intros -> i Hi. destruct i as [|[|i]]; [reflexivity|congruence|reflexivity].
  - intros -> i Hi Hi'.
    destruct i as [|[|[|i]]]; [congruence|reflexivity|congruence|reflexivity].
Qed.

End ShapeLayout.

Section ShapeBounds.
Local Open Scope Q_scope.

Lemma half_Q (W : Q) : W / inject_Z 2 == (1 # 2) * W.
Proof. field. Qed.

Lemma quarter_Q (W : Q) : W / inject_Z 4 == (1 # 4) * W.
Proof. field. Qed.

Lemma three_quarters_Q (W : Q) : inject_Z 3 * W / inject_Z 4 == (3 # 4) * W.
Proof. field. Qed.

Lemma lit_half_Q : lit (A := Q) 5 1 == 1 # 2.
Proof. reflexivity. Qed.

Lemma lit_tenth_Q : lit (A := Q) 1 1 == 1 # 10.
Proof. reflexivity. Qed.

(** The five samples of [linspace(0, W, 5)] lie in [0, W] for [W >= 0]. *)
Lemma quarter_points_within (W : Q) :
  0 <= W -> Forall (fun x => 0 <= x <= W) (linspace 0 W 5).
Proof.
  intros HW. pose proof (quarter_points W) as P.
  remember (linspace 0 W 5) as l eqn:El. clear El.
  pose proof (quarter_Q W) as E4. pose proof (half_Q W) as E2.
  pose proof (three_quarters_Q W) as E34.
  change (inject_Z 4) with 4 in E4, E34. change (inject_Z 2) with 2 in E2.
  change (inject_Z 3) with 3 in E34.
  repeat match goal with
         | P : Forall2 Qeq _ (_ :: _) |- _ => inversion P; subst; clear P
         | P : Forall2 Qeq _ [] |- _ => inversion P; subst; clear P
         end.
  repeat match goal with
         | E : _ == W / 4 |- _ => rewrite E4 in E
         | E : _ == W / 2 |- _ => rewrite E2 in E
         | E : _ == 3 * W / 4 |- _ => rewrite E34 in E
         end.
  clear E4 E2 E34. repeat constructor; lra.
Qed.

(** X11. In exact arithmetic, when the width is at least 1 and the two
    excavation depths and the two heads lie between [0] and [H], every shape
    and every annotation of the figure lies within the axis ranges
    [0, W] by [0, H]. *)
Theorem shapes_within_axes
    (H W K head_left head_right
     excavation_depth_right excavation_depth_left : Q) :
  1 <= W ->
  0 <= excavation_depth_right <= H ->
  0 <= excavation_depth_left <= H ->
  0 <= head_left <= H ->
  0 <= head_right <= H ->
  let fig := update_figure H W K head_left head_right
               excavation_depth_right excavation_depth_left in
  Forall (fun s => 0 <= Shape.x0 s <= W /\ 0 <= Shape.x1 s <= W
                   /\ 0 <= Shape.y0 s <= H /\ 0 <= Shape.y1 s <= H)
         (shapes fig)
  /\ Forall (fun a => 0 <= Annotation.x a <= W /\ 0 <= Annotation.y a <= H)
            (annotations fig).
Proof.
  intros HW Hr Hl Hhl Hhr. cbv zeta.
  rewrite update_figure_shapes, update_figure_annotations.
  pose proof (half_Q W) as E2. pose proof (quarter_Q W) as E4.
  pose proof (three_quarters_Q W) as E34.
  pose proof lit_half_Q as L5. pose proof lit_tenth_Q as L1.
  split.
  - rewrite !Forall_app. split; [|split].
    + repeat constructor; cbn [Shape.x0 Shape.x1 Shape.y0 Shape.y1];
        cbn [of_Z add sub mul div PyNum_Q]; change (inject_Z 0) with 0;
        rewrite ?E2, ?L5, ?L1; clear E2 E4 E34 L5 L1; lra.
    + apply Forall_map.
      eapply Forall_impl;
        [|apply (quarter_points_within (W := W)); clear E2 E4 E34 L5 L1; lra].
      intros x Hx. cbv beta in Hx. cbn [Shape.x0 Shape.x1 Shape.y0 Shape.y1].
      cbn [of_Z PyNum_Q]. change (inject_Z 0) with 0.
      clear E2 E4 E34 L5 L1. lra.
    + repeat constructor; cbn [Shape.x0 Shape.x1 Shape.y0 Shape.y1];
        cbn [of_Z add sub mul div PyNum_Q]; change (inject_Z 0) with 0;
        rewrite ?E2; clear E2 E4 E34 L5 L1; lra.
  - repeat constructor; cbn [Annotation.x Annotation.y];
      cbn [of_Z add sub mul div PyNum_Q]; rewrite ?E4, ?E34;
      clear E2 E4 E34 L5 L1; lra.
Qed.

Lemma shapes_within_axes_witness :
  1 <= 20 /\ 0 <= 5 <= 10 /\ 0 <= 0 <= 10 /\ 0 <= 8 <= 10 /\ 0 <= 5 <= 10
  /\ Forall (fun s => 0 <= Shape.x0 s <= 20 /\ 0 <= Shape.x1 s <= 20
                      /\ 0 <= Shape.y0 s <= 10 /\ 0 <= Shape.y1 s <= 10)
            (shapes (update_figure 10 20 (1 # 100000) 8 5 5 0)).
Proof.
  assert (P1 : 1 <= 20) by (unfold Qle; cbn; lia).
  assert (P2 : 0 <= 5 <= 10) by (split; unfold Qle; cbn; lia).
  assert (P3 : 0 <= 0 <= 10) by (split; unfold Qle; cbn; lia).
  assert (P4 : 0 <= 8 <= 10) by (split; unfold Qle; cbn; lia).
  exact (conj P1 (conj P2 (conj P3 (conj P4 (conj P2
    (proj1 (shapes_within_axes (1 # 100000) P1 P2 P3 P4 P2))))))).
Defined.

(** X12. Each water-level line carries its label. At every instance of
    the numbers the annotation sits at the level of the line, shows that
    level in its text, is blue like the line and has no arrow. Its x is the
    middle of the line's span in exact arithmetic and, in binary64, for
    every value of the width slider. *)
Theorem labels_sit_on_water_lines :
  (forall (A : Type) (py : PyNum A)
          (H W K head_left head_right
           excavation_depth_right excavation_depth_left : A),
     let fig := update_figure H W K head_left head_right
                  excavation_depth_right excavation_depth_left in
     Forall2 (fun a s =>
                Annotation.y a = Shape.y0 s
                /\ Shape.y1 s = Shape.y0 s
                /\ In (Value (Shape.y0 s)) (Annotation.text a)
                /\ Annotation.font_color a = stroke s
                /\ Annotation.showarrow a = false)
             (annotations fig) (water_lines fig)
     /\ map (@Annotation.y A) (annotations fig) = [head_left; head_right])
  /\ (forall H W K head_left head_right
             excavation_depth_right excavation_depth_left : Q,
       let fig := update_figure H W K head_left head_right
                    excavation_depth_right excavation_depth_left in
       Forall2 (fun a s =>
                  Annotation.x a == (Shape.x0 s + Shape.x1 s) / 2)
               (annotations fig) (water_lines fig))
  /\ Forall (fun W : float =>
       forall H K head_left head_right
              excavation_depth_right excavation_depth_left : float,
       let fig := update_figure H W K head_left head_right
                    excavation_depth_right excavation_depth_left in
       Forall2 (fun a s =>
                  eqb (Annotation.x a)
                      ((Shape.x0 s + Shape.x1 s) / of_Z 2)%py = true)
               (annotations fig) (water_lines fig))
     width_slider_values.
Proof.
  split; [|split].
  - intros A py H W K hl hr edr edl. cbv zeta.
    rewrite update_figure_annotations, update_figure_water_lines.
    split; [|reflexivity].
    repeat constructor; cbn; now left + (right; left).
  - intros H W K hl hr edr edl. cbv zeta.
    rewrite update_figure_annotations, update_figure_water_lines.
    repeat constructor; cbn; field.
  - assert (C : forallb (fun W : float => midpoint_check W)
                        (@width_slider_values float _) = true)
      by (vm_compute; reflexivity).
    apply Forall_forall. intros W HW H K hl hr edr edl. cbv zeta.
    rewrite update_figure_annotations, update_figure_water_lines.
    rewrite forallb_forall in C. specialize (C W HW).
    unfold midpoint_check in C. apply andb_prop in C. destruct C as [C1 C2].
    repeat constructor; cbn [Annotation.x Shape.x0 Shape.x1]; assumption.
Qed.

End ShapeBounds.

(** ** The layout and its sliders *)

(** X13. The callback is wired to the layout: component ids are unique,
    the seven inputs name the seven sliders, in document order, by their
    [value], the output names the one graph by its [figure], and the first
    call receives the sliders' initial values in the order of the
    parameters of [update_figure]. *)
Theorem layout_wiring {A : Type} {py : PyNum A} :
  NoDup (component_ids (@app_layout A py))
  /\ map fst callback_inputs = map (@Slider.id A) (sliders app_layout)
  /\ Forall (fun i => snd i = "value") callback_inputs
  /\ graphs (@app_layout A py) = [fst callback_output]
  /\ snd callback_output = "figure"
  /\ initial_inputs (@app_layout A py)
     = Some {| Inputs.depth_slider := of_Z 10;
               Inputs.width_slider := of_Z 20;
               Inputs.k_slider := lit 1 5;
               Inputs.head_left_slider := of_Z 8;
               Inputs.head_right_slider := of_Z 5;
               Inputs.excavation_depth_right_slider := of_Z 5;
               Inputs.excavation_depth_left_slider := of_Z 0 |}.
Proof.
  split.
  { cbn. repeat (constructor; [cbn; intuition discriminate|]). constructor. }
  split; [reflexivity|]. split; [repeat constructor|].
  repeat split.
Qed.

Section SliderFacts.
Local Open Scope Q_scope.

Lemma Exists_Qeq_bool (v : Q) (l : list Q) :
  existsb (Qeq_bool v) l = true -> Exists (Qeq v) l.
Proof.
  intros E. apply existsb_exists in E. destruct E as (x & Hx & Ex).
  apply Exists_exists. exists x. split; [exact Hx|]. now apply Qeq_bool_eq.
Qed.

Lemma Forall2_Qeq_bool (l l' : list Q) :
  (length l =? length l')%nat
  && forallb (fun p => Qeq_bool (fst p) (snd p)) (combine l l') = true ->
  Forall2 Qeq l l'.
Proof.
  revert l'. induction l as [|a l IH]; intros [|b l'] E; cbn in E;
    try discriminate; constructor.
  - apply Qeq_bool_eq. apply andb_prop in E. destruct E as [_ E].
    apply andb_prop in E. tauto.
  - apply IH. apply andb_prop in E. destruct E as [E1 E].
    apply andb_prop in E. destruct E as [_ E]. now rewrite E1, E.
Qed.

(** X14. Every slider of the layout is well formed in exact arithmetic: its
    range is not empty, its step is positive, the range is a whole number of
    steps, and the initial value and the marks are positions of the
    slider. *)
Theorem sliders_well_formed :
  Forall (fun s : Slider.t Q =>
            Slider.min s < Slider.max s
            /\ 0 < Slider.step s
            /\ Slider.min s <= Slider.value s <= Slider.max s
            /\ Exists (Qeq (Slider.value s)) (slider_positions s)
            /\ last (slider_positions s) 0 == Slider.max s
            /\ Forall (fun m => Exists (Qeq (fst m)) (slider_positions s))
                      (Slider.marks s))
         (sliders app_layout).
Proof.
  cbn [app_layout sliders flat_map app].
  repeat (apply Forall_cons; [|]); [..|apply Forall_nil];
    (split; [reflexivity|]);
    (split; [reflexivity|]);
    (split; [split; apply Qle_bool_imp_le; vm_compute; reflexivity|]);
    (split; [apply Exists_Qeq_bool; vm_compute; reflexivity|]);
    (split; [apply Qeq_bool_eq; vm_compute; reflexivity|]);
    cbn [Slider.marks];
    repeat (apply Forall_cons; [apply Exists_Qeq_bool; vm_compute; reflexivity|]);
    apply Forall_nil.
Qed.

(** X15. The positions of the sliders are the values over which the
    binary64 evaluations range: halves from 5 to 20, whole numbers from 10
    to 50, and so on; the conductivity slider has the hundred positions
    1e-6, 2e-6, ..., 1e-4. *)
Theorem slider_positions_are_the_values :
  Forall2 (fun (s : Slider.t Q) values => Forall2 Qeq (slider_positions s) values)
    (sliders app_layout)
    [ depth_slider_values; width_slider_values;
      map (fun i => inject_Z (Z.of_nat (S i)) / 1000000) (seq 0 100);
      head_left_slider_values; head_right_slider_values;
      excavation_depth_right_slider_values;
      excavation_depth_left_slider_values ].
Proof.
  cbn [app_layout sliders flat_map app].
  repeat (apply Forall2_cons;
          [apply Forall2_Qeq_bool; vm_compute; reflexivity|]).
  apply Forall2_nil.
Qed.

Lemma Forall_Qle_bool (p : Q -> Q -> bool) (P : Q -> Q -> Prop) (l l' : list Q) :
  (forall a b, p a b = true -> P a b) ->
  forallb (fun a => forallb (p a) l') l = true ->
  Forall (fun a => Forall (P a) l') l.
Proof.
  intros Hp E. apply Forall_forall. intros a Ha. apply Forall_forall.
  intros b Hb. apply Hp. rewrite forallb_forall in E.
  specialize (E a Ha). rewrite forallb_forall in E. now apply E.
Qed.

(** X16. What the sliders can reach: for all their values the left
    excavation stays within the soil layer ([0 <= y1 <= y0 = H]) and the
    sheet pile within the width, whereas the right excavation can be deeper
    than the layer and the left water level can stand above it. *)
Theorem slider_reach :
  Forall (fun H =>
    Forall (fun excavation_depth_left =>
      forall W K head_left head_right excavation_depth_right,
      exists left,
        excavation_left (update_figure H W K head_left head_right
                           excavation_depth_right excavation_depth_left)
        = Some left
        /\ 0 <= Shape.y1 left <= Shape.y0 left /\ Shape.y0 left == H)
      excavation_depth_left_slider_values)
    depth_slider_values
  /\ Forall (fun W =>
       forall H K head_left head_right
              excavation_depth_right excavation_depth_left,
       exists pile,
         sheetpile (update_figure H W K head_left head_right
                      excavation_depth_right excavation_depth_left)
         = Some pile
         /\ 0 <= Shape.x0 pile /\ Shape.x0 pile < Shape.x1 pile
         /\ Shape.x1 pile <= W)
     width_slider_values
  /\ Exists (fun H => Exists (fun excavation_depth_right =>
                                H < excavation_depth_right)
                             excavation_depth_right_slider_values)
            depth_slider_values
  /\ Exists (fun H => Exists (fun head_left => H < head_left)
                             head_left_slider_values)
            depth_slider_values.
Proof.
  split; [|split; [|split]].
  - assert (B : Forall (fun H => Forall (fun d => 0 <= d /\ d <= H)
                                       excavation_depth_left_slider_values)
                       depth_slider_values).
    { apply (Forall_Qle_bool (fun H d => Qle_bool 0 d && Qle_bool d H)).
      - intros a b E. apply andb_prop in E. destruct E as [E1 E2].
        split; now apply Qle_bool_imp_le.
      - vm_compute. reflexivity. }
    eapply Forall_impl; [|exact B]. intros H BH.
    eapply Forall_impl; [|exact BH]. intros d [D0 DH] W K hl hr edr.
    unfold excavation_left. rewrite update_figure_rectangles.
    eexists. split; [reflexivity|]. cbn [Shape.y0 Shape.y1].
    cbn [sub PyNum_Q]. clear B BH. split; [lra | reflexivity].
  - assert (B : Forall (fun W => 1 <= W) width_slider_values).
    { apply Forall_forall. intros W HW. apply Qle_bool_imp_le.
      revert W HW. apply forallb_forall. vm_compute. reflexivity. }
    eapply Forall_impl; [|exact B]. intros W HW H K hl hr edr edl.
    unfold sheetpile. rewrite update_figure_rectangles.
    eexists. split; [reflexivity|]. cbn [Shape.x0 Shape.x1].
    cbn [sub div of_Z PyNum_Q]. rewrite half_Q, lit_half_Q.
    cbv beta in HW. clear B. lra.
  - apply Exists_cons_hd. apply Exists_exists.
    eexists. split; [|shelve].
    apply in_map_iff. exists 18%nat. split; [reflexivity|].
    apply in_seq. lia.
    Unshelve. reflexivity.
  - apply Exists_cons_hd. apply Exists_exists.
    eexists. split; [|shelve].
    apply in_map_iff. exists 30%nat. split; [reflexivity|].
    apply in_seq. lia.
    Unshelve. reflexivity.
Qed.

End SliderFacts.

(** ** Binary64 for all numbers: zeros and NaN

    Two facts about the head that hold for every binary64 number, from the
    specification of the IEEE operations: what a width of zero does to the
    field, and the value of the head at [x = 0]. *)

Section Binary64Spec.

Lemma Prim2SF_zero : Prim2SF PrimFloat.zero = S754_zero false.
Proof. vm_compute. reflexivity. Qed.

Lemma Prim2SF_infinity : Prim2SF PrimFloat.infinity = S754_infinity false.
Proof. vm_compute. reflexivity. Qed.

Lemma SFeqb_refl_finite (s : bool) (m : positive) (e : Z) :
  SFeqb (S754_finite s m e) (S754_finite s m e) = true.
Proof.
  unfold SFeqb, SFcompare.
  destruct s; rewrite Z.compare_refl;
    change (Pos.compare_cont Eq m m) with (Pos.compare m m);
    now rewrite Pos.compare_refl.
Qed.

Lemma is_nan_spec (x : float) :
  PrimFloat.is_nan x = true <-> Prim2SF x = S754_nan.
Proof.
  unfold PrimFloat.is_nan. rewrite FloatAxioms.eqb_spec.
  destruct (Prim2SF x) as [s| s| |s m e].
  - cbn. split; discriminate.
  - destruct s; cbn; split; discriminate.
  - cbn. split; reflexivity.
  - rewrite SFeqb_refl_finite. cbn. split; discriminate.
Qed.

Lemma is_zero_spec (x : float) :
  PrimFloat.is_zero x = true <-> exists s, Prim2SF x = S754_zero s.
Proof.
  unfold PrimFloat.is_zero. rewrite FloatAxioms.eqb_spec, Prim2SF_zero.
  destruct (Prim2SF x) as [s| s| |s m e]; cbn.
  - split; [eauto | reflexivity].
  - destruct s; (split; [discriminate | intros (s' & E); discriminate E]).
  - split; [discriminate | intros (s' & E); discriminate E].
  - destruct s; (split; [discriminate | intros (s' & E); discriminate E]).
Qed.

Lemma is_infinity_spec (x : float) :
  PrimFloat.is_infinity x = true <-> exists s, Prim2SF x = S754_infinity s.
Proof.
  unfold PrimFloat.is_infinity.
  rewrite FloatAxioms.eqb_spec, FloatAxioms.abs_spec, Prim2SF_infinity.
  destruct (Prim2SF x) as [s| s| |s m e]; cbn.
  - split; [discriminate | intros (s' & E); discriminate E].
  - split; [eauto | reflexivity].
  - split; [discriminate | intros (s' & E); discriminate E].
  - split; [discriminate | intros (s' & E); discriminate E].
Qed.

Lemma is_finite_spec (x : float) :
  PrimFloat.is_finite x = true -> SF_is_finite (Prim2SF x) = true.
Proof.
  unfold PrimFloat.is_finite. intros E. apply negb_true_iff in E.
  apply orb_false_iff in E. destruct E as [En Ei].
  destruct (Prim2SF x) as [s| s| |s m e] eqn:P; try reflexivity.
  - assert (T : PrimFloat.is_infinity x = true)
      by (apply is_infinity_spec; eauto).
    rewrite T in Ei. discriminate Ei.
  - assert (T : PrimFloat.is_nan x = true) by now apply is_nan_spec.
    rewrite T in En. discriminate En.
Qed.

Lemma is_divisor_spec (x : float) :
  PrimFloat.is_nan x = false -> PrimFloat.is_zero x = false ->
  SF_is_divisor (Prim2SF x) = true.
Proof.
  intros Hn Hz. destruct (Prim2SF x) as [s| s| |s m e] eqn:P; try reflexivity.
  - assert (T : PrimFloat.is_zero x = true) by (apply is_zero_spec; eauto).
    rewrite T in Hz. discriminate Hz.
  - assert (T : PrimFloat.is_nan x = true) by now apply is_nan_spec.
    rewrite T in Hn. discriminate Hn.
Qed.

(** A finite number times zero is a zero. *)
Lemma SF_mul_zero (x : spec_float) :
  SF_is_finite x = true -> SF_is_zero (SF64mul x (S754_zero false)) = true.
Proof. destruct x; intros E; try discriminate E; reflexivity. Qed.

(** A zero divided by a number that is neither zero nor NaN is a zero. *)
Lemma SF_zero_div (z w : spec_float) :
  SF_is_zero z = true -> SF_is_divisor w = true ->
  SF_is_zero (SF64div z w) = true.
Proof.
  destruct z; intros Ez; try discriminate Ez.
  destruct w; intros Ew; try discriminate Ew; reflexivity.
Qed.

(** Subtracting a zero from a finite number gives a number [==] to it. *)
Lemma SF_sub_zero (x z : spec_float) :
  SF_is_finite x = true -> SF_is_zero z = true ->
  SFeqb (SF64sub x z) x = true.
Proof.
  destruct z as [sz| | |]; intros Ex Ez; try discriminate Ez.
  destruct x as [sx| | |sx mx ex]; try discriminate Ex.
  - destruct sx, sz; reflexivity.
  - apply SFeqb_refl_finite.
Qed.

(** A difference is finite only if its first term is. *)
Lemma SF_sub_finite_left (x y : spec_float) :
  SF_is_finite (SF64sub x y) = true -> SF_is_finite x = true.
Proof.
  destruct x as [sx| sx| |sx mx ex]; try reflexivity;
    destruct y as [sy| sy| |sy my ey]; try destruct sx; try destruct sy;
    intros E; cbn in E; discriminate E.
Qed.

(** With a width of zero the head at [x = 0] is [0/0]: not a number. *)
Lemma head_zero_width_is_nan (Y head_left head_right : float) :
  PrimFloat.is_nan
    (hydraulic_head PrimFloat.zero Y PrimFloat.zero head_left head_right)
  = true.
Proof.
  unfold hydraulic_head. cbn [sub mul div PyNum_float].
  apply is_nan_spec.
  rewrite FloatAxioms.sub_spec, FloatAxioms.div_spec, FloatAxioms.mul_spec.
  rewrite Prim2SF_zero.
  destruct (Prim2SF (PrimFloat.sub head_left head_right)) as [s| s| |s m e];
    destruct (Prim2SF head_left) as [s'| s'| |s' m' e']; reflexivity.
Qed.

(** X17. A width of zero raises no error: the callback returns its figure,
    and in binary64 every entry of the head field is NaN, whatever the other
    parameters are. *)
Theorem binary64_zero_width_field_is_nan
    (H K head_left head_right
     excavation_depth_right excavation_depth_left : float) :
  let z := contour_z (update_figure H (of_Z 0) K head_left head_right
                        excavation_depth_right excavation_depth_left) in
  length z = 100
  /\ Forall (fun row => length row = 100
                        /\ Forall (fun v => PrimFloat.is_nan v = true) row) z.
Proof.
  cbv zeta. split; [apply length_contour_z|].
  rewrite update_figure_contour_z.
  assert (X : linspace (of_Z 0) (of_Z 0 : float) 100 = repeat PrimFloat.zero 100)
    by (vm_compute; reflexivity).
  apply Forall_map, Forall_forall. intros yi _.
  rewrite length_map, length_linspace. split; [reflexivity|].
  apply Forall_map. rewrite X. apply Forall_forall. intros xj Hx.
  apply repeat_spec in Hx. subst xj. apply head_zero_width_is_nan.
Qed.

(** X18. For all binary64 numbers with a finite difference of the heads
    and a width that is neither zero nor NaN, the head at [x = 0] [==]
    [head_left]: the product with [x = 0] is a zero, so is its quotient by
    [W], and subtracting a zero changes nothing. *)
Theorem binary64_head_at_zero (Y W head_left head_right : float) :
  PrimFloat.is_finite (PrimFloat.sub head_left head_right) = true ->
  PrimFloat.is_nan W = false ->
  PrimFloat.is_zero W = false ->
  eqb (hydraulic_head (of_Z 0) Y W head_left head_right) head_left = true.
Proof.
  intros Hd Hn Hz.
  unfold hydraulic_head.
  cbn [eqb sub mul div of_Z float_of_Z PyNum_float].
  rewrite FloatAxioms.eqb_spec, FloatAxioms.sub_spec, FloatAxioms.div_spec,
    FloatAxioms.mul_spec, Prim2SF_zero.
  apply is_finite_spec in Hd.
  pose proof (is_divisor_spec Hn Hz) as Hw.
  apply SF_sub_zero.
  - rewrite FloatAxioms.sub_spec in Hd. now apply SF_sub_finite_left in Hd.
  - apply SF_zero_div; [|exact Hw]. now apply SF_mul_zero.
Qed.

Lemma binary64_head_at_zero_witness :
  let W : float := of_Z 20 in
  let head_left : float := of_Z 8 in
  let head_right : float := of_Z 5 in
  PrimFloat.is_finite (PrimFloat.sub head_left head_right) = true
  /\ PrimFloat.is_nan W = false
  /\ PrimFloat.is_zero W = false
  /\ eqb (hydraulic_head (of_Z 0) (of_Z 0) W head_left head_right) head_left
     = true.
Proof.
  cbv zeta.
  assert (P1 : PrimFloat.is_finite
                 (PrimFloat.sub (of_Z 8 : float) (of_Z 5 : float)) = true)
    by (vm_compute; reflexivity).
  assert (P2 : PrimFloat.is_nan (of_Z 20 : float) = false)
    by (vm_compute; reflexivity).
  assert (P3 : PrimFloat.is_zero (of_Z 20 : float) = false)
    by (vm_compute; reflexivity).
  exact (conj P1 (conj P2 (conj P3
           (@binary64_head_at_zero (of_Z 0) (of_Z 20) (of_Z 8) (of_Z 5)
              P1 P2 P3)))).
Defined.

End Binary64Spec.

(** ** The boundary values of the head (claim C2) *)

Section BoundaryValues.
Local Open Scope Q_scope.

(** C2, amended. In exact arithmetic, for every [W > 0] and all
    [head_left], [head_right], the head at [x = 0] equals [head_left] and the
    head at [x = W] equals [head_right]. As the program computes it, in
    binary64: the head at [x = 0] [==] [head_left] for all numbers with a
    finite difference of the heads and a width that is neither zero nor NaN;
    the head at [x = W] [==] [head_right] for every value of the width and
    head sliders, and for some other numbers it does not. *)
Theorem head_boundary_values :
  (forall Y W head_left head_right : Q,
     0 < W ->
     hydraulic_head 0 Y W head_left head_right == head_left
     /\ hydraulic_head W Y W head_left head_right == head_right)
  /\ (forall Y W head_left head_right : float,
       PrimFloat.is_finite (PrimFloat.sub head_left head_right) = true ->
       PrimFloat.is_nan W = false ->
       PrimFloat.is_zero W = false ->
       eqb (hydraulic_head (of_Z 0) Y W head_left head_right) head_left
       = true)
  /\ Forall (fun W : float =>
       Forall (fun head_left : float =>
         Forall (fun head_right : float =>
           forall Y : float,
             eqb (hydraulic_head (of_Z 0) Y W head_left head_right) head_left
             = true
             /\ eqb (hydraulic_head W Y W head_left head_right) head_right
                = true)
         head_right_slider_values)
       head_left_slider_values)
     width_slider_values
  /\ (exists W head_left head_right : float,
       ltb (of_Z 0) W = true
       /\ PrimFloat.is_finite W = true
       /\ PrimFloat.is_finite head_left = true
       /\ PrimFloat.is_finite head_right = true
       /\ eqb (hydraulic_head W (of_Z 0) W head_left head_right) head_right
          = false).
Proof.
  split; [|split; [|split]].
  - intros Y W hl hr HW. split.
    + apply hydraulic_head_left.
    + now apply hydraulic_head_right.
  - intros Y W hl hr Hd Hn Hz.
    unfold hydraulic_head.
    cbn [eqb sub mul div of_Z float_of_Z PyNum_float].
    rewrite FloatAxioms.eqb_spec, FloatAxioms.sub_spec, FloatAxioms.div_spec,
      FloatAxioms.mul_spec, Prim2SF_zero.
    apply is_finite_spec in Hd.
    pose proof (is_divisor_spec Hn Hz) as Hw.
    apply SF_sub_zero.
    + rewrite FloatAxioms.sub_spec in Hd. now apply SF_sub_finite_left in Hd.
    + apply SF_zero_div; [|exact Hw]. now apply SF_mul_zero.
  - eapply Forall_impl; [|exact binary64_boundary_values].
    intros W HW. eapply Forall_impl; [|exact HW].
    intros hl Hl. eapply Forall_impl; [|exact Hl].
    intros hr C Y. unfold boundary_check in C.
    apply andb_prop in C. destruct C as [C0 CW].
    rewrite (hydraulic_head_Y _ Y (of_Z 0)), (hydraulic_head_Y W Y (of_Z 0)).
    now split.
  - exists (of_Z 1), (lit 4 1), (lit 1 1). repeat split; vm_compute; reflexivity.
Qed.

Lemma head_boundary_values_witness :
  0 < 20
  /\ hydraulic_head 0 0 20 8 5 == 8
  /\ hydraulic_head 20 0 20 8 5 == 5.
Proof.
  split; [reflexivity|].
  exact (proj1 head_boundary_values 0 20 8 5 eq_refl).
Defined.

End BoundaryValues.

Section Binary64Axes.

(** X19. In binary64, for all values of the width and depth sliders and any
    other parameters, the x and y arrays of the contour start at zero and
    are strictly increasing: rounding never makes two samples coincide. *)
Theorem binary64_axes_increasing :
  Forall (fun W : float =>
    Forall (fun H : float =>
      forall K head_left head_right
             excavation_depth_right excavation_depth_left : float,
      exists t,
        contours (update_figure H W K head_left head_right
                    excavation_depth_right excavation_depth_left) = [t]
        /\ eqb (hd W (Trace.x t)) (of_Z 0) = true
        /\ increasing (Trace.x t) = true
        /\ eqb (hd H (Trace.y t)) (of_Z 0) = true
        /\ increasing (Trace.y t) = true)
      depth_slider_values)
    width_slider_values.
Proof.
  assert (C : forall l : list float,
            forallb (fun s => eqb (hd s (linspace (of_Z 0) s 100)) (of_Z 0)
                              && increasing (linspace (of_Z 0) s 100)) l = true ->
            Forall (fun s => eqb (hd s (linspace (of_Z 0) s 100)) (of_Z 0) = true
                             /\ increasing (linspace (of_Z 0) s 100) = true) l).
  { intros l E. apply Forall_forall. intros s Hs.
    rewrite forallb_forall in E. specialize (E s Hs).
    now apply andb_prop in E. }
  assert (CW := C (@width_slider_values float _)).
  assert (CH := C (@depth_slider_values float _)).
  specialize (CW ltac:(vm_compute; reflexivity)).
  specialize (CH ltac:(vm_compute; reflexivity)).
  eapply Forall_impl; [|exact CW]. intros W [W0 WI].
  eapply Forall_impl; [|exact CH]. intros H [H0 HI] K hl hr edr edl.
  destruct (contour_trace_shape H W K hl hr edr edl) as (t & Hd & Hc & _).
  destruct (update_figure_data H W K hl hr edr edl)
    as (t' & Hd' & _ & Hx & Hy & _).
  rewrite Hd in Hd'. injection Hd' as <-.
  exists t. rewrite Hx, Hy. now repeat split.
Qed.

End Binary64Axes.
